(** * Raven dev loop: build coordinator, change watcher, reload notifier

    A shallow embedding of the hot-reload development server of the Raven
    repository ([cli/raven_dev.py], [cli/raven_build.py],
    [cli/raven_serve.py] and the stand-alone [Examples/TodoApp/raven-dev.py])
    and the properties of its specification, each proved or refuted on the
    embedding.

    Conventions.
    - Python [str] is [string]; the operations used by the code ([in],
      [endswith], [lower], [split], [replace], slicing) are defined in
      [PyStr] with Python's meaning.
    - [time.time()] is a rational number of seconds ([Q]); each clock read of
      the code is an explicit argument.
    - A file enters the server only through [hashlib.md5(f.read()).hexdigest()];
      it is represented by that digest.
    - [build_wasm] runs on several threads and takes no lock.  [Interleaving]
      follows the threads statement by statement, with a switch of threads
      allowed between any two reads or writes of a flag; [Coordinator.step]
      takes the entry of a call and the end of a build in one piece each and
      serves for the fingerprint, which those blocks do not touch. *)

From Stdlib Require Import ZArith QArith Lqa Lia List Ascii String.
From Stdlib Require Import DecimalString.
From stdpp Require Import base strings gmap list.
Import ListNotations.
Open Scope string_scope.

(* ===================================================================== *)
(** ** Python string operations *)
(* ===================================================================== *)

Module PyStr.

(** [p in s] for strings: [p] occurs in [s] as a contiguous substring. *)
Fixpoint contains (p s : string) : bool :=
  if String.prefix p s then true
  else match s with
       | EmptyString => false
       | String _ s' => contains p s'
       end.

(** [s.endswith(suf)] *)
Fixpoint endswith (suf s : string) : bool :=
  if String.eqb s suf then true
  else match s with
       | EmptyString => false
       | String _ s' => endswith suf s'
       end.

(** [s.startswith(p)] *)
Definition startswith (p s : string) : bool := String.prefix p s.

(** One character of [s.lower()].  Only the letters A-Z change; bytes of a
    multi-byte UTF-8 character are kept (no such character lowers to an
    ASCII letter of the marker searched for). *)
Definition lower_ascii (c : ascii) : ascii :=
  let n := nat_of_ascii c in
  if (65 <=? n)%nat && (n <=? 90)%nat then ascii_of_nat (n + 32) else c.

Fixpoint lower (s : string) : string :=
  match s with
  | EmptyString => EmptyString
  | String c s' => String (lower_ascii c) (lower s')
  end.

(** [s.split(sep)] for a one-character separator: never the empty list. *)
Fixpoint split (sep : ascii) (s : string) : list string :=
  match s with
  | EmptyString => [EmptyString]
  | String c s' =>
      if Ascii.eqb c sep then EmptyString :: split sep s'
      else match split sep s' with
           | h :: t => String c h :: t
           | [] => [String c EmptyString]
           end
  end.

(** [s.replace(old, new)] for a non-empty [old]: every occurrence, scanning
    from the left, occurrences not overlapping.  [skip] counts the characters
    of the occurrence just replaced that are still to be passed over. *)
Fixpoint replace_from (old new : string) (skip : nat) (s : string) : string :=
  match s with
  | EmptyString => EmptyString
  | String c s' =>
      match skip with
      | S k => replace_from old new k s'
      | O =>
          if String.prefix old s
          then new ++ replace_from old new (String.length old - 1) s'
          else String c (replace_from old new 0 s')
      end
  end.

Definition replace (old new s : string) : string := replace_from old new 0 s.

(** [str(n)] for a natural number. *)
Definition str_of_nat (n : nat) : string := NilEmpty.string_of_uint (Nat.to_uint n).

(** The double quote and the newline, which string literals here do not hold. *)
Definition dquote : string := String (ascii_of_nat 34) EmptyString.
Definition newline_char : ascii := ascii_of_nat 10.
Definition newline : string := String newline_char EmptyString.

End PyStr.

(* ===================================================================== *)
(** ** Error lines of a failed build ([raven_dev.build_wasm], [raven_build.build_command]) *)
(* ===================================================================== *)

Module ErrorLines.

(** [[line for line in stderr.split('\n') if 'error:' in line.lower()]] *)
Definition errors (stderr : string) : list string :=
  List.filter (fun line => PyStr.contains "error:" (PyStr.lower line))
              (PyStr.split PyStr.newline_char stderr).

(** [print(f"  {error}")] *)
Definition show (error : string) : string := "  " ++ error.

(** The lines [build_wasm] prints after a non-zero exit (raven_dev.py 99-104):
    the first 5 error lines, then a count of the others when there are any. *)
Definition dev_report (stderr : string) : list string :=
  let errors := errors stderr in
  List.map show (List.firstn 5 errors)
  ++ (if (5 <? List.length errors)%nat
      then ["  ... and " ++ PyStr.str_of_nat (List.length errors - 5) ++ " more errors"]
      else []).

(** The lines [build_command] prints after a non-zero exit (raven_build.py
    59-66).  With [--verbose] the output is not captured ([result.stderr] is
    [None]); an empty [stderr] is falsy as well. *)
Definition build_report (verbose : bool) (stderr : option string) : list string :=
  match stderr with
  | Some err =>
      if negb verbose && negb (String.eqb err "")
      then List.map show (List.firstn 10 (errors err))
      else []
  | None => []
  end.

(** The diagnostics of a build with eleven compiler errors and a warning. *)
Definition eleven_errors : string :=
  String.concat PyStr.newline
    [ "warning: unused variable";
      "A.swift:1:1: error: e1"; "A.swift:2:1: error: e2";
      "A.swift:3:1: Error: e3"; "A.swift:4:1: ERROR: e4";
      "A.swift:5:1: error: e5"; "A.swift:6:1: error: e6";
      "A.swift:7:1: error: e7"; "A.swift:8:1: error: e8";
      "A.swift:9:1: error: e9"; "A.swift:10:1: error: e10";
      "A.swift:11:1: error: e11" ].

End ErrorLines.

(* ===================================================================== *)
(** ** The build coordinator ([RavenDevServer]) *)
(* ===================================================================== *)

Module Coordinator.

(** The fields of [RavenDevServer] that [build_wasm] and [status] use. *)
Record Server := mkServer {
  building : bool;
  build_queued : bool;
  last_wasm_hash : option string;
}.

(** [__init__] *)
Definition init : Server := mkServer false false None.

Definition set_building (b : bool) (s : Server) : Server :=
  mkServer b (build_queued s) (last_wasm_hash s).
Definition set_build_queued (b : bool) (s : Server) : Server :=
  mkServer (building s) b (last_wasm_hash s).
Definition set_last_wasm_hash (h : option string) (s : Server) : Server :=
  mkServer (building s) (build_queued s) h.

(** The two files of a build: [config['wasm_src']], the compiler's output, and
    [config['wasm_file']], the copy in the served directory.  [None]: the
    file does not exist; [Some d]: it exists and its MD5 hex digest is [d]. *)
Record FS := mkFS {
  wasm_src : option string;
  wasm_file : option string;
}.

(** What the server owns, and the lines it writes with [print]; the lines
    of [log], which carry the time of day, are left out. *)
Record World := mkWorld {
  srv : Server;
  fs : FS;
  stdout : list string;
}.

(** What [subprocess.run(..., timeout=120)] does. *)
Inductive ProcResult :=
| Exited (returncode : Z) (stderr : string)
| TimeoutExpired
| RunRaised.   (* another exception, e.g. the [swift] executable is missing *)

(** What the environment does during one build cycle. *)
Record BuildEnv := mkEnv {
  proc : ProcResult;
  produced : option string;   (* [wasm_src] once the command has returned *)
  copy_raises : bool;         (* [shutil.copy2] raises *)
  copy_leaves : option string;
    (* what a copy that raises has made of [wasm_file] by then; [None]: it
       raised before it opened the destination *)
  read_raises : bool;         (* [open]/[read] in [get_wasm_hash] raises *)
  stat_raises : bool;         (* [wasm_dst.stat()] raises *)
}.

(** *** A state and exception monad for the body of [build_wasm] *)

Inductive Exn := ExnTimeout | ExnOther.

Definition M (A : Type) : Type := World -> (A + Exn) * World.

Definition ret {A} (a : A) : M A := fun w => (inl a, w).
Definition raise {A} (e : Exn) : M A := fun w => (inr e, w).
Definition bind {A B} (c : M A) (k : A -> M B) : M B :=
  fun w => match c w with
           | (inl a, w') => k a w'
           | (inr e, w') => (inr e, w')
           end.
Definition gets {A} (f : World -> A) : M A := fun w => (inl (f w), w).
Definition modify (f : World -> World) : M unit := fun w => (inl tt, f w).

Notation "x <- c ;; k" := (bind c (fun x => k))
  (at level 100, c at next level, right associativity).
Notation "c ;;; k" := (bind c (fun _ => k))
  (at level 100, right associativity).

Definition on_srv (f : Server -> Server) (w : World) : World :=
  mkWorld (f (srv w)) (fs w) (stdout w).
Definition on_fs (f : FS -> FS) (w : World) : World :=
  mkWorld (srv w) (f (fs w)) (stdout w).
Definition print_lines (ls : list string) (w : World) : World :=
  mkWorld (srv w) (fs w) (stdout w ++ ls).

(** [subprocess.run]: the command rewrites [wasm_src] as it pleases. *)
Definition subprocess_run (env : BuildEnv) : M (Z * string) :=
  modify (on_fs (fun f => mkFS (produced env) (wasm_file f))) ;;;
  match proc env with
  | Exited rc err => ret (rc, err)
  | TimeoutExpired => raise ExnTimeout
  | RunRaised => raise ExnOther
  end.

(** [shutil.copy2(wasm_src, wasm_dst)].  A copy that raises may have
    truncated or rewritten the destination before it did. *)
Definition copy2 (env : BuildEnv) : M unit :=
  if copy_raises env then
    modify (on_fs (fun f =>
      mkFS (wasm_src f)
           (match copy_leaves env with
            | Some d => Some d
            | None => wasm_file f
            end))) ;;;
    raise ExnOther
  else modify (on_fs (fun f => mkFS (wasm_src f) (wasm_src f))).

(** [get_wasm_hash]: [None] when the served artifact does not exist. *)
Definition get_wasm_hash (env : BuildEnv) : M (option string) :=
  wasm_file <- gets (fun w => wasm_file (fs w)) ;;
  match wasm_file with
  | None => ret None
  | Some d => if read_raises env then raise ExnOther else ret (Some d)
  end.

(** [wasm_dst.stat()] *)
Definition stat (env : BuildEnv) : M unit :=
  if stat_raises env then raise ExnOther else ret tt.

(** [new_hash[:8]]: a [TypeError] when [new_hash] is [None]. *)
Definition slice8 (h : option string) : M string :=
  match h with
  | None => raise ExnOther
  | Some d => ret (String.substring 0 8 d)
  end.

(** The [try] block of [build_wasm] (raven_dev.py 86-125). *)
Definition try_block (env : BuildEnv) : M bool :=
  result <- subprocess_run env ;;
  if negb (fst result =? 0)%Z then
    modify (print_lines (ErrorLines.dev_report (snd result))) ;;;
    ret false
  else
    src <- gets (fun w => wasm_src (fs w)) ;;
    match src with
    | None => ret false
    | Some _ =>
        copy2 env ;;;
        new_hash <- get_wasm_hash env ;;
        stat env ;;;
        slice8 new_hash ;;;
        modify (on_srv (set_last_wasm_hash new_hash)) ;;;
        ret true
    end.

(** The two [except] clauses: both return [False]. *)
Definition try_except (env : BuildEnv) (w : World) : bool * World :=
  match try_block env w with
  | (inl b, w') => (b, w')
  | (inr ExnTimeout, w') => (false, w')
  | (inr ExnOther, w') => (false, w')
  end.

(** The [finally] block (133-139); the boolean tells whether it started a
    thread with target [build_wasm]. *)
Definition finally_block (s : Server) : Server * bool :=
  let s := set_building false s in
  if build_queued s then (set_build_queued false s, true) else (s, false).

(** The entry of [build_wasm] (76-80); the boolean tells whether the call
    goes on to build ([true]) or has returned [None] ([false]). *)
Definition enter (s : Server) : Server * bool :=
  if building s then (set_build_queued true s, false)
  else (set_building true s, true).

(** What a call returns. *)
Inductive Ret := RetNone | RetBool (b : bool).

(** One call of [build_wasm] that no other thread interrupts. *)
Definition build_wasm (env : BuildEnv) (w : World) : Ret * World * bool :=
  let (s1, go) := enter (srv w) in
  let w1 := on_srv (fun _ => s1) w in
  if go then
    let (r, w2) := try_except env w1 in
    let (s3, spawn) := finally_block (srv w2) in
    (RetBool r, on_srv (fun _ => s3) w2, spawn)
  else (RetNone, w1, false).

(** [status]: the JSON of [GET /api/status], the timestamp aside. *)
Definition status (s : Server) : bool * option string :=
  (building s, last_wasm_hash s).

(** *** Threads, by whole blocks

    The transitions below take the entry of a call (76-80) in one piece, and
    likewise what follows the return of the build command up to the end of
    the [finally] block.  Neither the entry nor the [finally] block reads or
    writes [last_wasm_hash]; these transitions are used for the fingerprint.
    What the two flags do when threads run between the statements of a
    block is the subject of [Interleaving] below. *)

(** [running]: threads between [self.building = True] and their [finally];
    [pending]: threads started by a [finally] block that have not run the
    entry of [build_wasm] yet; [executions]: builds started so far (calls of
    [subprocess.run]). *)
Record State := mkState {
  world : World;
  running : nat;
  pending : nat;
  executions : nat;
}.

Inductive Event :=
| Call                    (* a thread calls [build_wasm] and runs its entry *)
| Queued                  (* a thread started by [finally] runs the entry *)
| Finish (env : BuildEnv) (* the build command returns; rest of [try], [finally] *).

Definition do_enter (st : State) (pending' : nat) : State :=
  let (s1, go) := enter (srv (world st)) in
  let w1 := on_srv (fun _ => s1) (world st) in
  if go then mkState w1 (S (running st)) pending' (S (executions st))
  else mkState w1 (running st) pending' (executions st).

Definition do_finish (env : BuildEnv) (st : State) (running' : nat) : State :=
  let (_, w2) := try_except env (world st) in
  let (s3, spawn) := finally_block (srv w2) in
  mkState (on_srv (fun _ => s3) w2) running'
          (if spawn then S (pending st) else pending st) (executions st).

Definition step (st : State) (ev : Event) : option State :=
  match ev with
  | Call => Some (do_enter st (pending st))
  | Queued =>
      match pending st with
      | O => None
      | S p => Some (do_enter st p)
      end
  | Finish env =>
      match running st with
      | O => None
      | S r => Some (do_finish env st r)
      end
  end.

Fixpoint run (st : State) (evs : list Event) : option State :=
  match evs with
  | [] => Some st
  | ev :: evs' =>
      match step st ev with
      | Some st' => run st' evs'
      | None => None
      end
  end.

Definition start (f : FS) : State := mkState (mkWorld init f []) 0 0 0.

Definition ok_env (d : string) : BuildEnv :=
  mkEnv (Exited 0 "") (Some d) false None false false.

(** A cycle succeeds exactly when the command exits with status 0, its output
    exists, and copy, read and stat raise nothing; the result is the digest
    of the artifact it copies. *)
Definition succeeds (env : BuildEnv) : option string :=
  match proc env, produced env with
  | Exited rc _, Some d =>
      if (rc =? 0)%Z && negb (copy_raises env) && negb (read_raises env)
         && negb (stat_raises env)
      then Some d else None
  | _, _ => None
  end.

(** The cycle described by [env] runs clean: exit status 0, the artifact
    [d] is there, and copying, hashing and stat raise nothing. *)
Definition clean_success (env : BuildEnv) (d : string) : Prop :=
  (exists err, proc env = Exited 0 err) /\ produced env = Some d /\
  copy_raises env = false /\ read_raises env = false /\ stat_raises env = false.

(** The failure outcomes of a cycle: non-zero exit, timeout, the command
    could not be run, artifact missing, or an exception while copying,
    hashing or measuring the artifact. *)
Definition failure (env : BuildEnv) : Prop :=
  (exists rc err, proc env = Exited rc err /\ rc <> 0%Z) \/
  proc env = TimeoutExpired \/
  proc env = RunRaised \/
  produced env = None \/
  copy_raises env = true \/ read_raises env = true \/ stat_raises env = true.

(** A served directory that already holds an artifact when the server starts. *)
Definition served_artifact : FS :=
  mkFS None (Some "5d41402abc4b2a76b9719d911017c592").

(** A cycle whose build command runs into the 120 second timeout. *)
Definition timeout_env : BuildEnv := mkEnv TimeoutExpired None false None false false.

(** An idle server whose stored fingerprint is that of the served artifact. *)
Definition stored_world : World :=
  mkWorld (mkServer false false (Some "5d41402abc4b2a76b9719d911017c592"))
          served_artifact [].


(** A cycle whose copy raises after it has emptied the destination; the
    digest is that of the empty file. *)
Definition broken_copy_env : BuildEnv :=
  mkEnv (Exited 0 "") (Some "7d793037a0760186574b0282f2f435e7")
        true (Some "d41d8cd98f00b204e9800998ecf8427e") false false.

End Coordinator.

(* ===================================================================== *)
(** ** [build_wasm] on racing threads, statement by statement *)
(* ===================================================================== *)

Module Interleaving.
Import Coordinator.

(** Where a thread stands in [build_wasm] (raven_dev.py 74-139,
    raven-dev.py 111-178): at its next read or write of a flag of the
    server.  The code takes no lock, so another thread may run between any
    two of these statements. *)
Inductive Pc :=
| AtTest           (* 76: [if self.building:] *)
| AtSetQueued      (* 77: [self.build_queued = True]; the test read [True] *)
| AtSetBuilding    (* 80: [self.building = True]; the test read [False] *)
| InBuild          (* 88: inside [subprocess.run] *)
| AtClearBuilding  (* 134: [self.building = False] *)
| AtTestQueued     (* 136: [if self.build_queued:] *)
| AtClearQueued    (* 137: [self.build_queued = False] *)
| AtStartThread    (* 139: [threading.Thread(target=self.build_wasm).start()] *)
| Returned.

(** The statement at [pc], run on the fields [s]: where the thread stands
    afterwards, and the fields.  A thread inside the build command or back
    from the call has none. *)
Definition statement (pc : Pc) (s : Server) : option (Pc * Server) :=
  match pc with
  | AtTest => Some (if building s then AtSetQueued else AtSetBuilding, s)
  | AtSetQueued => Some (Returned, set_build_queued true s)
  | AtSetBuilding => Some (InBuild, set_building true s)
  | InBuild => None
  | AtClearBuilding => Some (AtTestQueued, set_building false s)
  | AtTestQueued => Some (if build_queued s then AtClearQueued else Returned, s)
  | AtClearQueued => Some (AtStartThread, set_build_queued false s)
  | AtStartThread => Some (Returned, s)
  | Returned => None
  end.

(** The server, the threads that have called [build_wasm] in the order in
    which they were started, and the number of builds started so far (calls
    of [subprocess.run]). *)
Record Sys := mkSys {
  shared : World;
  threads : list Pc;
  builds : nat;
}.

Inductive Action :=
| Arrive
    (* a thread is started on [build_wasm] from outside: the watcher's
       [threading.Thread(target=self.dev_server.build_wasm).start()] *)
| Next (i : nat)
    (* thread [i] runs its next statement *)
| BuildEnds (i : nat) (env : BuildEnv).
    (* the build command of thread [i] returns; the thread runs the rest of
       its [try] block and the [except] clauses, which use neither flag *)

Definition started_by (pc : Pc) : list Pc :=
  match pc with
  | AtStartThread => [AtTest]
  | _ => []
  end.

Definition step (sys : Sys) (a : Action) : option Sys :=
  match a with
  | Arrive =>
      Some (mkSys (shared sys) (threads sys ++ [AtTest])%list (builds sys))
  | Next i =>
      match threads sys !! i with
      | Some pc =>
          match statement pc (srv (shared sys)) with
          | Some (pc', s') =>
              Some (mkSys (on_srv (fun _ => s') (shared sys))
                          (<[i := pc']> (threads sys) ++ started_by pc)%list
                          (match pc with
                           | AtSetBuilding => S (builds sys)
                           | _ => builds sys
                           end))
          | None => None
          end
      | None => None
      end
  | BuildEnds i env =>
      match threads sys !! i with
      | Some InBuild =>
          Some (mkSys (snd (try_except env (shared sys)))
                      (<[i := AtClearBuilding]> (threads sys))
                      (builds sys))
      | _ => None
      end
  end.

Fixpoint run (sys : Sys) (acts : list Action) : option Sys :=
  match acts with
  | [] => Some sys
  | a :: acts' =>
      match step sys a with
      | Some sys' => run sys' acts'
      | None => None
      end
  end.

(** A new server, no call made yet. *)
Definition start (f : FS) : Sys := mkSys (mkWorld init f []) [] 0.

Definition is_in_build (pc : Pc) : bool :=
  match pc with InBuild => true | _ => false end.

(** The builds in flight. *)
Definition in_flight (sys : Sys) : nat :=
  List.length (List.filter is_in_build (threads sys)).

Definition is_returned (pc : Pc) : bool :=
  match pc with Returned => true | _ => false end.

(** The largest number of builds in flight at once during a run. *)
Fixpoint peak (sys : Sys) (acts : list Action) : nat :=
  Nat.max (in_flight sys)
          (match acts with
           | [] => 0
           | a :: acts' =>
               match step sys a with
               | Some sys' => peak sys' acts'
               | None => 0
               end
           end).

(** Every call made so far is over. *)
Definition all_returned (sys : Sys) : bool := forallb is_returned (threads sys).

Definition is_arrive (a : Action) : bool :=
  match a with Arrive => true | _ => false end.

(** The next action of thread [i] when it runs on; [env] is what its build
    command meets. *)
Definition act (i : nat) (env : BuildEnv) (sys : Sys) : Action :=
  match threads sys !! i with
  | Some InBuild => BuildEnds i env
  | _ => Next i
  end.

(** Thread [i] runs up to [n] statements with no other thread in between. *)
Fixpoint alone (n i : nat) (env : BuildEnv) (sys : Sys) : Sys :=
  match n with
  | O => sys
  | S n' =>
      match step sys (act i env sys) with
      | Some sys' => alone n' i env sys'
      | None => sys
      end
  end.

(** A first call starts a build on a new server (thread 0); two more calls
    arrive (threads 1 and 2) and both test [self.building] while thread 0 is
    inside the build command. *)
Definition two_calls_while_building : list Action :=
  [Arrive; Next 0; Next 0; Arrive; Arrive; Next 1; Next 2].

(** Thread 1 sets the flag; the build of thread 0 ends and its [finally]
    block clears the flag and starts thread 3; only now thread 2 sets the
    flag, which it decided to do when it tested [self.building]; thread 3
    builds, finds the flag set again and starts thread 4, which builds. *)
Definition late_flag_after_restart : list Action :=
  [ Next 1;
    BuildEnds 0 (ok_env "a1"); Next 0; Next 0; Next 0; Next 0;
    Next 2;
    Next 3; Next 3; BuildEnds 3 (ok_env "a2"); Next 3; Next 3; Next 3; Next 3;
    Next 4; Next 4; BuildEnds 4 (ok_env "a3"); Next 4; Next 4 ].

(** Two calls on an idle server that both test [self.building] before either
    sets it. *)
Definition two_calls_when_idle : list Action :=
  [Arrive; Arrive; Next 0; Next 1; Next 0; Next 1].

(** A build is in flight (thread 0); a call arrives (thread 1) and tests
    [self.building]. *)
Definition call_while_building : list Action :=
  [Arrive; Next 0; Next 0; Arrive; Next 1].

(** The build ends and its [finally] block finds no flag; then thread 1 sets
    the flag and returns. *)
Definition flag_after_finally : list Action :=
  [BuildEnds 0 (ok_env "a1"); Next 0; Next 0; Next 1].

End Interleaving.

(* ===================================================================== *)
(** ** The change watcher ([SourceWatcher]) *)
(* ===================================================================== *)

Module Watcher.

Record SourceWatcher := mkWatcher {
  last_build : Q;
  debounce_seconds : Q;
}.

(** [__init__]: [last_build = 0], [debounce_seconds = 1.0]. *)
Definition init : SourceWatcher := mkWatcher 0 1.

(** A watchdog event, as far as the handler reads it. *)
Record WatchEvent := mkEvent {
  src_path : string;
  is_directory : bool;
}.

Definition Qltb (a b : Q) : bool := negb (Qle_bool b a).

(** [should_trigger_build]; [now] is its read of [time.time()]. *)
Definition should_trigger_build (w : SourceWatcher) (path : string) (now : Q) : bool :=
  if negb (PyStr.endswith ".swift" path) then false
  else if PyStr.contains "/.build/" path || PyStr.contains "/." path then false
  else if Qltb (now - last_build w) (debounce_seconds w) then false
  else true.

(** [on_modified]; [now'] is the clock read stored in [last_build].  The
    boolean tells whether a thread with target [build_wasm] was started. *)
Definition on_modified (w : SourceWatcher) (ev : WatchEvent) (now now' : Q)
  : SourceWatcher * bool :=
  if is_directory ev then (w, false)
  else if should_trigger_build w (src_path ev) now
       then (mkWatcher now' (debounce_seconds w), true)
       else (w, false).

(** [on_created] calls [on_modified]. *)
Definition on_created := on_modified.

Inductive Kind := Created | Modified.

(** An event as the observer thread delivers it, with the two clock reads the
    handler makes for it. *)
Record Delivery := mkDelivery {
  kind : Kind;
  event : WatchEvent;
  now : Q;
  now' : Q;
}.

Definition dispatch (w : SourceWatcher) (d : Delivery) : SourceWatcher * bool :=
  match kind d with
  | Created => on_created w (event d) (now d) (now' d)
  | Modified => on_modified w (event d) (now d) (now' d)
  end.

(** The observer delivers the events one after the other; the result counts
    the build requests made. *)
Fixpoint deliver (w : SourceWatcher) (ds : list Delivery) : SourceWatcher * nat :=
  match ds with
  | [] => (w, O)
  | d :: ds' =>
      let (w1, fired) := dispatch w d in
      let (w2, n) := deliver w1 ds' in
      (w2, if fired then S n else n)
  end.

(** The path passes the extension and directory filters. *)
Definition valid_source (path : string) : bool :=
  PyStr.endswith ".swift" path
  && negb (PyStr.contains "/.build/" path || PyStr.contains "/." path).

(** The segments of a path, and the test of the specification's convention:
    some segment starts with a dot. *)
Definition segments (path : string) : list string := PyStr.split "/" path.

Definition dot_segment (seg : string) : bool := PyStr.startswith "." seg.

Definition under_dot_directory (path : string) : bool :=
  List.existsb dot_segment (segments path).

Definition is_absolute (path : string) : bool := PyStr.startswith "/" path.

(** The roots the observer is scheduled on.  [dev_command] passes
    [str(app_root / source_dir)] (raven_dev.py 266-270), an absolute path,
    [app_root] being [Path.cwd()] or one of its parents; the TodoApp script
    passes the entries of [SOURCE_DIRS] (raven-dev.py 30, 318-320).  The
    observer reports a file by the root it was found under, a slash, and the
    path below that root. *)
Definition SOURCE_DIRS : list string := ["Sources"; "../../Sources"].

Definition below (root path : string) : bool :=
  PyStr.startswith (root ++ "/") path.

(** A path the observer can report. *)
Definition reported (path : string) : bool :=
  is_absolute path || List.existsb (fun root => below root path) SOURCE_DIRS.

(** The clock reads of the delivery lie in the window [[t0, t0 + width]]. *)
Definition in_window (t0 width : Q) (d : Delivery) : Prop :=
  (t0 <= now d /\ now d <= t0 + width /\ t0 <= now' d /\ now' d <= t0 + width)%Q.

(** The event is for a file, and its path passes the filters. *)
Definition for_valid_source (d : Delivery) : Prop :=
  is_directory (event d) = false /\ valid_source (src_path (event d)) = true.

(** Five saves of distinct source files within 200 ms. *)
Definition burst : list Delivery :=
  [ mkDelivery Modified (mkEvent "/app/Sources/App/Main.swift" false)
               (1700000000 # 1) (1700000000001 # 1000);
    mkDelivery Modified (mkEvent "/app/Sources/App/Model.swift" false)
               (1700000000040 # 1000) (1700000000041 # 1000);
    mkDelivery Created (mkEvent "/app/Sources/App/Store.swift" false)
               (1700000000080 # 1000) (1700000000081 # 1000);
    mkDelivery Modified (mkEvent "/app/Sources/App/Row.swift" false)
               (1700000000120 # 1000) (1700000000121 # 1000);
    mkDelivery Modified (mkEvent "/app/Sources/App/List.swift" false)
               (1700000000199 # 1000) (1700000000200 # 1000) ].

End Watcher.

(* ===================================================================== *)
(** ** The reload script served to the browser *)
(* ===================================================================== *)

Module Reload.

(** The outcome of one [fetch('/api/status')]: the request failed, or the
    JSON arrived with [wasm_hash] being [null] ([None]) or a string. *)
Inductive Fetch :=
| Failed
| Data (wasm_hash : option string).

(** JavaScript truthiness of [null] or a string. *)
Definition truthy (v : option string) : bool :=
  match v with
  | None => false
  | Some s => negb (String.eqb s "")
  end.

(** [a !== b] on values that are [null] or strings. *)
Definition strict_ne (a b : option string) : bool :=
  match a, b with
  | None, None => false
  | Some x, Some y => negb (String.eqb x y)
  | _, _ => true
  end.

(** One run of [checkForUpdates] with its [.then] callbacks: the new value of
    [lastHash] and whether [window.location.reload()] was called. *)
Definition checkForUpdates (lastHash : option string) (f : Fetch)
  : option string * bool :=
  match f with
  | Failed => (lastHash, false)
  | Data wasm_hash =>
      match lastHash with
      | None => (wasm_hash, false)
      | Some _ =>
          if truthy wasm_hash && strict_ne wasm_hash lastHash
          then (lastHash, true)
          else (lastHash, false)
      end
  end.

(** The script from page load ([lastHash = null]): the polls in order, up to
    the first reload.  The result lists, for each poll made, whether it
    reloaded the page. *)
Fixpoint polls (lastHash : option string) (fs : list Fetch) : list bool :=
  match fs with
  | [] => []
  | f :: fs' =>
      let (lastHash', reload) := checkForUpdates lastHash f in
      if reload then [true] else false :: polls lastHash' fs'
  end.

Definition page (fs : list Fetch) : list bool := polls None fs.

(** The interval of [setInterval], in milliseconds. *)
Definition poll_interval : nat := 2000.

End Reload.

(* ===================================================================== *)
(** ** Response headers ([add_headers]) *)
(* ===================================================================== *)

Module Headers.

Record Response := mkResponse {
  mimetype : string;
  headers : gmap string string;
}.

Definition no_cache (h : gmap string string) : gmap string string :=
  <["Expires" := "0"]>
    (<["Pragma" := "no-cache"]>
       (<["Cache-Control" := "no-cache, no-store, must-revalidate"]> h)).

(** [add_headers] of the dev server (raven_dev.py 56-63, and the same in
    Examples/TodoApp/raven-dev.py). *)
Definition add_headers_dev (r : Response) : Response :=
  let h := if String.eqb (mimetype r) "application/wasm"
           then no_cache (headers r) else headers r in
  mkResponse (mimetype r) (<["Access-Control-Allow-Origin" := "*"]> h).

(** [add_headers] of the static server (raven_serve.py 57-63, and
    [add_header] of Examples/TodoApp/serve.py). *)
Definition add_headers_serve (r : Response) : Response :=
  let h := if String.eqb (mimetype r) "application/wasm"
           then no_cache (headers r) else headers r in
  mkResponse (mimetype r) h.

Definition has_no_cache (r : Response) : Prop :=
  headers r !! "Cache-Control" = Some "no-cache, no-store, must-revalidate" /\
  headers r !! "Pragma" = Some "no-cache" /\
  headers r !! "Expires" = Some "0".

Definition has_cors (r : Response) : Prop :=
  headers r !! "Access-Control-Allow-Origin" = Some "*".

End Headers.

(* ===================================================================== *)
(** ** Injection of the reload script ([inject_hot_reload]) *)
(* ===================================================================== *)

Module Inject.

(** The script of cli/raven_dev.py. *)
Definition script : string :=
  "
    <!-- Raven Hot Reload -->
    <script id=" ++ PyStr.dquote ++ "raven-hot-reload" ++ PyStr.dquote ++ ">
    (function() {
        let lastHash = null;
        function checkForUpdates() {
            fetch('/api/status')
                .then(r => r.json())
                .then(data => {
                    if (lastHash === null) {
                        lastHash = data.wasm_hash;
                        console.log('🔥 Hot reload active');
                        return;
                    }
                    if (data.wasm_hash && data.wasm_hash !== lastHash) {
                        console.log('🔄 Reloading...');
                        window.location.reload();
                    }
                })
                .catch(() => {});
        }
        setInterval(checkForUpdates, 2000);
        checkForUpdates();
    })();
    </script>
    ".

(** The script of Examples/TodoApp/raven-dev.py. *)
Definition hot_reload_script : string :=
  "
    <!-- Raven Hot Reload -->
    <script id=" ++ PyStr.dquote ++ "raven-hot-reload" ++ PyStr.dquote ++ ">
    (function() {
        let lastHash = null;

        function checkForUpdates() {
            fetch('/api/status')
                .then(r => r.json())
                .then(data => {
                    if (lastHash === null) {
                        lastHash = data.wasm_hash;
                        console.log('üî• Hot reload active, hash:', lastHash?.substring(0, 8));
                        return;
                    }

                    if (data.wasm_hash && data.wasm_hash !== lastHash) {
                        console.log('üîÑ New build detected, reloading...');
                        window.location.reload();
                    }
                })
                .catch(err => console.error('Hot reload check failed:', err));
        }

        // Check every 2 seconds
        setInterval(checkForUpdates, 2000);
        checkForUpdates();
    })();
    </script>
    ".

(** The body shared by the two functions.  The file at the path is [None]
    when it does not exist and [Some content] otherwise; the result is the
    file after the call. *)
Definition inject (script : string) (file : option string) : option string :=
  match file with
  | None => None
  | Some content =>
      if PyStr.contains "raven-hot-reload" content then Some content
      else if PyStr.contains "</body>" content
           then Some (PyStr.replace "</body>" (script ++ PyStr.newline ++ "</body>") content)
           else Some content
  end.

(** cli/raven_dev.py *)
Definition inject_hot_reload : option string -> option string := inject script.

(** Examples/TodoApp/raven-dev.py *)
Definition inject_hot_reload_script : option string -> option string :=
  inject hot_reload_script.

End Inject.

(* ===================================================================== *)
(** ** The page polling the server *)
(* ===================================================================== *)

Module HotReload.

(** What a poll of the page observes when the request reaches the server in
    state [st]: the [wasm_hash] of the JSON of [status]. *)
Definition observe (st : Coordinator.State) : Reload.Fetch :=
  Reload.Data (snd (Coordinator.status (Coordinator.srv (Coordinator.world st)))).

End HotReload.

(* ===================================================================== *)
(** ** Shared utilities (cli/utils.py) *)
(* ===================================================================== *)

Module Utils.

(** An absolute directory, the innermost name first; [[]] is the root, whose
    parent is the root itself. *)
Definition Dir := list string.

Definition parent (d : Dir) : Dir := List.tl d.

(** The loop [for _ in range(3)] of [find_app_root]. *)
Fixpoint search_parents (has_package : Dir -> bool) (n : nat) (current : Dir)
  : option Dir :=
  match n with
  | O => None
  | S n' =>
      let current := parent current in
      if has_package current then Some current
      else search_parents has_package n' current
  end.

(** [find_app_root]; [has_package d] tells whether [d / 'Package.swift']
    exists, [cwd] is [Path.cwd()]. *)
Definition find_app_root (has_package : Dir -> bool) (cwd : Dir) : option Dir :=
  if has_package cwd then Some cwd else search_parents has_package 3 cwd.

(** The directory [k] levels above [d]. *)
Fixpoint up (k : nat) (d : Dir) : Dir :=
  match k with
  | O => d
  | S k' => up k' (parent d)
  end.

(** The values of the JSON file that the code looks into: strings and lists
    of strings; [JOther] stands for any other value. *)
Inductive JValue :=
| JStr (s : string)
| JList (l : list string)
| JOther.

(** [defaults] of [get_config], in the order of the dictionary. *)
Definition defaults (app_root_name : string) : list (string * JValue) :=
  [ ("app_name", JStr app_root_name);
    ("swift_sdk", JStr "swift-6.2.3-RELEASE_wasm");
    ("wasm_target", JStr "wasm32-unknown-wasip1/debug");
    ("public_dir", JStr "public");
    ("build_dir", JStr ".build");
    ("source_dirs", JList ["Sources"]) ].

(** [config.setdefault(key, value)] *)
Definition setdefault (key : string) (value : JValue) (config : gmap string JValue)
  : gmap string JValue :=
  match config !! key with
  | Some _ => config
  | None => <[key := value]> config
  end.

(** The loop [for key, value in defaults.items()]. *)
Definition merge_defaults (app_root_name : string) (config : gmap string JValue)
  : gmap string JValue :=
  foldl (fun c kv => setdefault (fst kv) (snd kv) c) config (defaults app_root_name).

(** [app_root.name] from [str(app_root)]. *)
Definition path_name (app_root : string) : string :=
  List.last (PyStr.split "/" app_root) "".

(** [get_config] up to the two computed paths it stores last (utils.py
    56-87).  [file] is the object read from [.raven.json], [None] when the
    file does not exist; [framework_exists] tells whether
    [app_root / '../../Sources'] exists.  The result is [None] when the code
    raises: [append] on a [source_dirs] that is not a list. *)
Definition get_config_settings
    (file : option (gmap string JValue)) (app_root : string) (framework_exists : bool)
  : option (gmap string JValue) :=
  let config := match file with Some c => c | None => ∅ end in
  let config := merge_defaults (path_name app_root) config in
  if PyStr.contains "Examples" app_root then
    if framework_exists then
      let config :=
        match config !! "source_dirs" with
        | None => <["source_dirs" := JList ["Sources"]]> config
        | Some _ => config
        end in
      match config !! "source_dirs" with
      | Some (JList l) =>
          Some (<["source_dirs" := JList (l ++ ["../../Sources"])]> config)
      | _ => None
      end
    else Some config
  else Some config.

End Utils.

(* ===================================================================== *)
(** ** The commands ([dev_command], [build_command]) *)
(* ===================================================================== *)

Module Commands.
Import Coordinator.










(** What [subprocess.run(cmd, ...)] does in [build_command]. *)
Inductive RunResult :=
| Returned (returncode : Z) (stderr : string)
| Interrupted     (* [KeyboardInterrupt] *)
| Raised.         (* another exception *)

(** What [build_command] finds. *)
Record BuildSetup := mkBuildSetup {
  root_found : bool;             (* [find_app_root()] is not [None] *)
  setup_raises : bool;           (* [os.chdir] or [get_config], which stand
                                    before the [try], raises *)
  release : bool;
  verbose : bool;
  ran : RunResult;
  debug_wasm : option string;    (* [config['wasm_src']] after the command *)
  release_wasm : option string;  (* the artifact below [release] *)
  size_raises : bool;            (* [wasm_src.stat()] raises *)
  public_exists : bool;
  copy_fails : bool;             (* [shutil.copy2] raises or is interrupted *)
  copy_left : option string;     (* what the served artifact is then; [None]:
                                    the copy never opened it *)
  public_wasm : option string;   (* the served artifact before the command *)
}.

Inductive Ending :=
| Returns                 (* the command returns *)
| Exits (code : nat)      (* [sys.exit(code)] *)
| Raises.                 (* an exception leaves the command *)

Record BuildOutcome := mkBuildOutcome {
  ending : Ending;
  error_lines : list string;     (* the lines printed by the loop at 64-65;
                                    what [log] and [click.echo] print, with
                                    the time of day, is left out *)
  public_wasm' : option string;  (* the served artifact afterwards *)
}.

(** The artifact of the chosen configuration (71-73). *)
Definition chosen_wasm (s : BuildSetup) : option string :=
  if release s then release_wasm s else debug_wasm s.

(** [build_command] (raven_build.py 19-97). *)
Definition build_command (s : BuildSetup) : BuildOutcome :=
  let stop e := mkBuildOutcome e [] (public_wasm s) in
  if negb (root_found s) then stop (Exits 1)
  else if setup_raises s then stop Raises
  else
    match ran s with
    | Interrupted => stop (Exits 1)
    | Raised => stop (Exits 1)
    | Returned rc err =>
        if negb (rc =? 0)%Z then
          mkBuildOutcome (Exits 1)
            (ErrorLines.build_report (verbose s) (if verbose s then None else Some err))
            (public_wasm s)
        else
          match chosen_wasm s with
          | None => stop (Exits 1)
          | Some d =>
              if size_raises s then stop (Exits 1)
              else if public_exists s then
                     if copy_fails s then
                       mkBuildOutcome (Exits 1) []
                         (match copy_left s with
                          | Some x => Some x
                          | None => public_wasm s
                          end)
                     else mkBuildOutcome Returns [] (Some d)
                   else stop Returns
          end
    end.

End Commands.

(* ===================================================================== *)
(** ** The API gap report (Scripts/swiftui_api_gap_report.py) *)
(* ===================================================================== *)

Module GapReport.

Definition TYPE_DECL_KINDS : list string :=
  ["Struct"; "Class"; "Enum"; "Protocol"; "TypeAlias"].
Definition API_DECL_KINDS : list string :=
  ["Func"; "Var"; "Subscript"; "Constructor"; "Macro"].
Definition TARGET_DECL_KINDS : list string := TYPE_DECL_KINDS ++ API_DECL_KINDS.
Definition SCORABLE_DECL_KINDS : list string := TARGET_DECL_KINDS.

(** [x in xs] for a set or a list of strings. *)
Definition mem (x : string) (xs : list string) : bool :=
  List.existsb (String.eqb x) xs.

Record SwiftUISymbol := mkSymbol {
  usr : string;
  decl_kind : string;
  name : string;
  printed_name : string;
  module_name : string;
  path : list string;
}.

(** [owner_context]: [sym.path[-2]] when the path has two names or more. *)
Definition owner_context (sym : SwiftUISymbol) : string :=
  if (2 <=? List.length (path sym))%nat
  then List.nth (List.length (path sym) - 2) (path sym) ""
  else module_name sym.

(** [qualified_member] *)
Definition qualified_member (owner member : string) : string :=
  if String.eqb owner "" then member else owner ++ "." ++ member.

(** [owner_match_candidates] *)
Definition owner_match_candidates (owner : string) : list string :=
  owner :: (if String.eqb owner "ModifiedContent" then ["View"]
            else if String.eqb owner "TabContent" then ["View"]
            else []).

(** [should_allow_name_only_fallback] *)
Definition should_allow_name_only_fallback (sym : SwiftUISymbol) (owner : string) : bool :=
  mem owner [""; "GLOBAL"; "SwiftUI"; module_name sym].

(** [owner or "GLOBAL"] *)
Definition or_global (owner : string) : string :=
  if String.eqb owner "" then "GLOBAL" else owner.

(** The inventory of Raven's public declarations ([scan_raven_sources]). *)
Record Inventory := mkInventory {
  type_names : list string;
  qualified_type_names : list string;
  func_names : list string;
  var_names : list string;
  qualified_func_names : list string;
  qualified_var_names : list string;
  constructor_owners : list string;
}.

(** The loop over [owner_match_candidates] in [match_symbol]. *)
Definition qualified_in (owner member : string) (names : list string) : bool :=
  List.existsb (fun candidate_owner => mem (qualified_member candidate_owner member) names)
               (owner_match_candidates (or_global owner)).

(** [match_symbol]: [None], [Some true] or [Some false]. *)
Definition match_symbol (sym : SwiftUISymbol) (raven : Inventory) : option bool :=
  if negb (mem (decl_kind sym) SCORABLE_DECL_KINDS) then None
  else
    let owner := owner_context sym in
    if mem (decl_kind sym) TYPE_DECL_KINDS then
      if negb (String.eqb owner "")
         && negb (mem owner ["SwiftUI"; module_name sym])
         && mem (qualified_member owner (name sym)) (qualified_type_names raven)
      then Some true
      else Some (mem (name sym) (type_names raven))
    else if String.eqb (decl_kind sym) "Func" || String.eqb (decl_kind sym) "Macro" then
      if qualified_in owner (name sym) (qualified_func_names raven) then Some true
      else if should_allow_name_only_fallback sym owner
           then Some (mem (name sym) (func_names raven))
           else Some false
    else if String.eqb (decl_kind sym) "Var" || String.eqb (decl_kind sym) "Subscript" then
      if qualified_in owner (name sym) (qualified_var_names raven) then Some true
      else if should_allow_name_only_fallback sym owner
           then Some (mem (name sym) (var_names raven))
           else Some false
    else if String.eqb (decl_kind sym) "Constructor" then
      Some (mem owner (constructor_owners raven))
    else Some false.

(** One round of the first loop of [build_report]. *)
Definition classify_step (raven : Inventory)
    (acc : list SwiftUISymbol * list SwiftUISymbol * list SwiftUISymbol)
    (sym : SwiftUISymbol)
  : list SwiftUISymbol * list SwiftUISymbol * list SwiftUISymbol :=
  match acc with
  | (matched, missing, skipped) =>
      match match_symbol sym raven with
      | None => (matched, missing, (skipped ++ [sym])%list)
      | Some true => ((matched ++ [sym])%list, missing, skipped)
      | Some false => (matched, (missing ++ [sym])%list, skipped)
      end
  end.

(** The lists [matched], [missing] and [skipped] of [build_report]. *)
Definition classify (swiftui_symbols : list SwiftUISymbol) (raven : Inventory)
  : list SwiftUISymbol * list SwiftUISymbol * list SwiftUISymbol :=
  List.fold_left (classify_step raven) swiftui_symbols ([], [], []).

(** [scoreable_total] of [build_report]. *)
Definition scoreable_total (swiftui_symbols : list SwiftUISymbol) (raven : Inventory) : nat :=
  (List.length swiftui_symbols
   - List.length (snd (classify swiftui_symbols raven)))%nat.

(** Every name the first inventory knows, the second knows as well. *)
Definition inventory_le (r1 r2 : Inventory) : Prop :=
  (forall x, mem x (type_names r1) = true -> mem x (type_names r2) = true) /\
  (forall x, mem x (qualified_type_names r1) = true ->
             mem x (qualified_type_names r2) = true) /\
  (forall x, mem x (func_names r1) = true -> mem x (func_names r2) = true) /\
  (forall x, mem x (var_names r1) = true -> mem x (var_names r2) = true) /\
  (forall x, mem x (qualified_func_names r1) = true ->
             mem x (qualified_func_names r2) = true) /\
  (forall x, mem x (qualified_var_names r1) = true ->
             mem x (qualified_var_names r2) = true) /\
  (forall x, mem x (constructor_owners r1) = true ->
             mem x (constructor_owners r2) = true).

Definition is_matched (raven : Inventory) (sym : SwiftUISymbol) : bool :=
  match match_symbol sym raven with Some true => true | _ => false end.
Definition is_missing (raven : Inventory) (sym : SwiftUISymbol) : bool :=
  match match_symbol sym raven with Some false => true | _ => false end.
Definition is_skipped (raven : Inventory) (sym : SwiftUISymbol) : bool :=
  match match_symbol sym raven with None => true | _ => false end.

(** A node of the digester's JSON: its name ([""] when the key is absent),
    the optional keys the walk reads, and its children. *)
Unset Elimination Schemes.
Inductive Node :=
| mkNode (node_name : string) (declKind : option string) (node_usr : option string)
         (printedName : option string) (moduleName : option string)
         (children : list Node).
Set Elimination Schemes.

(** [d.get(key, default)] on an optional key. *)
Definition get_or (default : string) (v : option string) : string :=
  match v with Some s => s | None => default end.

(** The symbol [walk_swiftui_nodes] yields for the node itself, if any. *)
Definition own_symbol (name : string) (declKind node_usr printedName moduleName : option string)
    (next_parents : list string) : list SwiftUISymbol :=
  match declKind with
  | Some decl_kind =>
      if mem decl_kind TARGET_DECL_KINDS then
        let usr := get_or "" node_usr in
        if negb (String.eqb usr "") && negb (PyStr.startswith "_" name) then
          if negb (PyStr.contains "._" (String.concat "." next_parents)) then
            [mkSymbol usr decl_kind name (get_or name printedName)
                      (get_or "SwiftUI" moduleName) next_parents]
          else []
        else []
      else []
  | None => []
  end.

(** [walk_swiftui_nodes]: the symbols in the order the generator yields them. *)
Fixpoint walk_swiftui_nodes (node : Node) (parents : list string) : list SwiftUISymbol :=
  match node with
  | mkNode name declKind node_usr printedName moduleName children =>
      let next_parents :=
        if String.eqb name "" then parents else (parents ++ [name])%list in
      (own_symbol name declKind node_usr printedName moduleName next_parents
       ++ (fix walk_children (cs : list Node) : list SwiftUISymbol :=
             match cs with
             | [] => []
             | c :: cs' => (walk_swiftui_nodes c next_parents ++ walk_children cs')%list
             end) children)%list
  end.

(** What the walk guarantees of a symbol. *)
Definition well_formed (sym : SwiftUISymbol) : Prop :=
  mem (decl_kind sym) SCORABLE_DECL_KINDS = true /\
  usr sym <> "" /\
  PyStr.startswith "_" (name sym) = false /\
  PyStr.contains "._" (String.concat "." (path sym)) = false.

Definition no_inventory : Inventory := mkInventory [] [] [] [] [] [] [].

End GapReport.

(* ===================================================================== *)
(** * Properties *)
(* ===================================================================== *)

(** ** The string operations on sample inputs *)

Example contains_ex1 : PyStr.contains "/." "/a/.build/x" = true.
Proof. reflexivity. Qed.
Example contains_ex2 : PyStr.contains "/." ".build/x" = false.
Proof. reflexivity. Qed.
Example endswith_ex1 : PyStr.endswith ".swift" "Sources/App/Main.swift" = true.
Proof. reflexivity. Qed.
Example endswith_ex2 : PyStr.endswith ".swift" "Main.swift.bak" = false.
Proof. reflexivity. Qed.
Example lower_ex : PyStr.lower "a.swift:3: ERROR: Bad" = "a.swift:3: error: bad".
Proof. reflexivity. Qed.
Example split_ex : PyStr.split "/" "/a//b" = [""; "a"; ""; "b"].
Proof. reflexivity. Qed.
Example replace_ex : PyStr.replace "ab" "X" "abab-aab" = "XX-aX".
Proof. reflexivity. Qed.
Example replace_ex2 : PyStr.replace "aa" "b" "aaa" = "ba".
Proof. reflexivity. Qed.
Example str_of_nat_ex : PyStr.str_of_nat 106 = "106".
Proof. reflexivity. Qed.

(* ===================================================================== *)
(** ** Build coordinator *)
(* ===================================================================== *)

Module CoordinatorFacts.
Import Coordinator.

(** *** The body of a build cycle *)

Local Opaque ErrorLines.dev_report.

Ltac unfold_body :=
  unfold succeeds, try_except, try_block, subprocess_run, copy2, get_wasm_hash,
    stat, slice8, bind, modify, gets, ret, raise in *;
  cbn in *.

Ltac case_env env :=
  destruct env as [[rc err| |] [d'|] [|] cl [|] [|]]; unfold_body;
  try (destruct (rc =? 0)%Z; cbn in * ).

(** The [try] block and the [except] clauses never touch the two flags. *)
Lemma try_except_flags env w :
  building (srv (snd (try_except env w))) = building (srv w) /\
  build_queued (srv (snd (try_except env w))) = build_queued (srv w).
Proof. case_env env; auto. Qed.

Lemma try_except_success env w d :
  succeeds env = Some d ->
  fst (try_except env w) = true /\
  last_wasm_hash (srv (snd (try_except env w))) = Some d /\
  wasm_file (fs (snd (try_except env w))) = Some d.
Proof. case_env env; try discriminate; intros [= ->]; auto. Qed.

Lemma try_except_failure env w :
  succeeds env = None ->
  fst (try_except env w) = false /\
  last_wasm_hash (srv (snd (try_except env w))) = last_wasm_hash (srv w).
Proof. case_env env; try discriminate; auto. Qed.

Lemma finally_block_flags s :
  building (fst (finally_block s)) = false /\
  build_queued (fst (finally_block s)) = false /\
  last_wasm_hash (fst (finally_block s)) = last_wasm_hash s /\
  snd (finally_block s) = build_queued s.
Proof.
  unfold finally_block; cbn. destruct (build_queued s) eqn:E; cbn; auto.
Qed.

(** A cycle whose command exits with a non-zero status prints the report of
    its error lines and nothing else. *)
Lemma try_except_prints_report env w rc err :
  proc env = Exited rc err -> rc <> 0%Z ->
  try_except env w
  = (false, print_lines (ErrorLines.dev_report err)
                        (on_fs (fun f => mkFS (produced env) (wasm_file f)) w)).
Proof.
  intros Hp Hrc. destruct env as [pr prod cr cl rr sr]; cbn in Hp; subst pr.
  unfold_body. destruct (Z.eqb_spec rc 0); [contradiction|reflexivity].
Qed.

(** *** What the entry of a call does *)

Lemma do_enter_idle st p :
  building (srv (world st)) = false ->
  do_enter st p =
  mkState (on_srv (fun _ => set_building true (srv (world st))) (world st))
          (S (running st)) p (S (executions st)).
Proof. intros H. unfold do_enter, enter. now rewrite H. Qed.

Lemma do_enter_busy st p :
  building (srv (world st)) = true ->
  do_enter st p =
  mkState (on_srv (fun _ => set_build_queued true (srv (world st))) (world st))
          (running st) p (executions st).
Proof. intros H. unfold do_enter, enter. now rewrite H. Qed.

(** *** The fingerprint *)

Lemma succeeds_clean env d : succeeds env = Some d <-> clean_success env d.
Proof.
  unfold succeeds, clean_success.
  destruct env as [[rc err| |] [d'|] [|] cl [|] [|]]; cbn;
    try (destruct (Z.eqb_spec rc 0) as [->|Hne]; cbn);
    split; try discriminate;
    try (intros [= ->]; eauto 10);
    try (intros ([err' H] & H1 & H2 & H3 & H4); congruence).
Qed.

Lemma succeeds_failure env : succeeds env = None <-> failure env.
Proof.
  unfold succeeds, failure.
  destruct env as [[rc err| |] [d'|] [|] cl [|] [|]]; cbn;
    try (destruct (Z.eqb_spec rc 0) as [->|Hne]; cbn);
    split; try discriminate; auto 10; try (intros _; left; eauto).
  intros [(rc' & err' & [= <- <-] & Hne)|[H|[H|[H|[H|[H|H]]]]]];
    congruence.
Qed.


(** The same for the transitions of the threads. *)
Lemma step_fingerprint st ev st' :
  step st ev = Some st' ->
  last_wasm_hash (srv (world st')) = last_wasm_hash (srv (world st)) \/
  exists env d, ev = Finish env /\ succeeds env = Some d /\
                wasm_file (fs (world st')) = Some d /\
                last_wasm_hash (srv (world st')) = Some d.
Proof.
  intros Hstep.
  assert (He : forall p, last_wasm_hash (srv (world (do_enter st p)))
                         = last_wasm_hash (srv (world st))).
  { intros p. destruct (building (srv (world st))) eqn:E.
    - now rewrite do_enter_busy by assumption.
    - now rewrite do_enter_idle by assumption. }
  destruct ev as [| |env]; cbn in Hstep.
  - injection Hstep as <-. left. apply He.
  - destruct (pending st); [discriminate|]. injection Hstep as <-. left. apply He.
  - destruct (running st) as [|r]; [discriminate|]. injection Hstep as <-.
    unfold do_finish. destruct (succeeds env) as [d|] eqn:Es.
    + right. exists env, d.
      destruct (try_except_success env (world st) d Es) as (_ & H2 & H3).
      destruct (try_except env (world st)) as [b w2]; cbn in H2, H3.
      pose proof (finally_block_flags (srv w2)) as (_ & _ & H4 & _).
      destruct (finally_block (srv w2)) as [s3 spawn]; cbn in *.
      repeat split; congruence.
    + left. destruct (try_except_failure env (world st) Es) as (_ & H2).
      destruct (try_except env (world st)) as [b w2]; cbn in H2.
      pose proof (finally_block_flags (srv w2)) as (_ & _ & H4 & _).
      destruct (finally_block (srv w2)) as [s3 spawn]; cbn in *.
      congruence.
Qed.



(** *** The status endpoint *)





End CoordinatorFacts.

(* ===================================================================== *)
(** ** Build coordinator: racing threads *)
(* ===================================================================== *)

Module InterleavingFacts.
Import Coordinator Interleaving.

(** A thread that runs with no other thread in between does what
    [build_wasm] says: the same server, files and output, a build started
    exactly when [self.building] was clear, and a new thread exactly when
    the [finally] block starts one. *)
Lemma alone_build_wasm (env : BuildEnv) (w : World) (n : nat) :
  alone 7 0 env (mkSys w [AtTest] n)
  = mkSys (snd (fst (build_wasm env w)))
          (Returned :: if snd (build_wasm env w) then [AtTest] else [])
          (if building (srv w) then n else S n).
Proof.
  unfold build_wasm, enter. destruct w as [s f o]. cbn [srv].
  destruct (building s) eqn:Eb.
  - cbn. unfold on_srv. cbn. rewrite Eb. reflexivity.
  - cbn. unfold on_srv. cbn. rewrite Eb. cbn. unfold on_srv. cbn.
    destruct (try_except env (mkWorld (set_building true s) f o)) as [r w2].
    unfold finally_block. cbn.
    destruct (build_queued (srv w2)) eqn:Eq; cbn; unfold on_srv; cbn;
      rewrite ?Eq; reflexivity.
Qed.

(** A system in which every call has returned can only move by a new call. *)
Lemma all_returned_stuck sys a :
  all_returned sys = true -> is_arrive a = false -> step sys a = None.
Proof.
  unfold all_returned. intros Hall Ha.
  assert (Hi : forall i pc, threads sys !! i = Some pc -> pc = Returned).
  { intros i pc Hl. apply list_elem_of_lookup_2 in Hl.
    apply list_elem_of_In in Hl.
    rewrite forallb_forall in Hall. specialize (Hall _ Hl).
    now destruct pc. }
  destruct a as [|i|i env]; [discriminate| |]; cbn.
  - destruct (threads sys !! i) as [pc|] eqn:El; [|reflexivity].
    now rewrite (Hi _ _ El).
  - destruct (threads sys !! i) as [pc|] eqn:El; [|reflexivity].
    now rewrite (Hi _ _ El).
Qed.

Lemma all_returned_rest sys acts sys' :
  all_returned sys = true ->
  Forall (fun a => is_arrive a = false) acts ->
  run sys acts = Some sys' -> sys' = sys.
Proof.
  intros Hall Hf Hr. destruct acts as [|a acts]; cbn in Hr.
  - now injection Hr as <-.
  - inversion Hf as [|? ? Ha _]; subst.
    now rewrite (all_returned_stuck _ _ Hall Ha) in Hr.
Qed.

(** Racing threads leave the fingerprint alone as well: a statement of any
    thread changes [last_wasm_hash] only at the end of a build cycle that
    ran clean, to the digest of the artifact it copied. *)
Lemma racing_fingerprint sys a sys' :
  step sys a = Some sys' ->
  last_wasm_hash (srv (shared sys')) = last_wasm_hash (srv (shared sys)) \/
  exists i env d,
    a = BuildEnds i env /\ clean_success env d /\
    wasm_file (fs (shared sys')) = Some d /\
    last_wasm_hash (srv (shared sys')) = Some d.
Proof.
  destruct a as [|i|i env]; cbn.
  - intros [= <-]. now left.
  - destruct (threads sys !! i) as [pc|]; [|discriminate].
    destruct pc; cbn; try discriminate; intros [= <-]; now left.
  - destruct (threads sys !! i) as [[]|]; try discriminate. intros [= <-]. cbn.
    destruct (succeeds env) as [d|] eqn:Es.
    + right. exists i, env, d.
      destruct (CoordinatorFacts.try_except_success env (shared sys) d Es)
        as (_ & H2 & H3).
      apply CoordinatorFacts.succeeds_clean in Es. auto.
    + left. now destruct (CoordinatorFacts.try_except_failure env (shared sys) Es).
Qed.

(** C1, on the code as it runs.  [build_wasm] takes no lock between testing
    [self.building] and writing a flag.  (a) A build is in flight and two
    calls arrive; both test [self.building] while the build command runs, and
    neither starts a build.  The second sets [build_queued] only after the
    [finally] block of the build has cleared the flag and started the
    follow-up thread: the follow-up build finds the flag set again and starts
    one more.  Three builds are executed in all, never two at once.  (b) Two
    calls on an idle server that both test [self.building] before either
    sets it both build, at the same time. *)
Theorem two_calls_three_builds :
  (exists mid fin,
     run (start (mkFS None None)) two_calls_while_building = Some mid /\
     threads mid = [InBuild; AtSetQueued; AtSetQueued] /\
     building (srv (shared mid)) = true /\
     builds mid = 1%nat /\ in_flight mid = 1%nat /\
     run mid late_flag_after_restart = Some fin /\
     all_returned fin = true /\
     builds fin = 3%nat /\
     peak mid late_flag_after_restart = 1%nat) /\
  (exists both,
     run (start (mkFS None None)) two_calls_when_idle = Some both /\
     threads both = [InBuild; InBuild] /\
     in_flight both = 2%nat /\ builds both = 2%nat).
Proof.
  split.
  - eexists. eexists.
    split; [reflexivity|]. split; [reflexivity|]. split; [reflexivity|].
    split; [reflexivity|]. split; [reflexivity|].
    split; [vm_compute; reflexivity|]. split; [reflexivity|].
    split; reflexivity.
  - eexists. split; [reflexivity|]. repeat split.
Qed.

(** C4, on the code as it runs.  A build is in flight; a call arrives and
    tests [self.building], which is set.  Before the call writes
    [build_queued] the build ends, and its [finally] block, finding no flag,
    starts no thread.  The call then sets the flag and returns.  It has
    started no build, and none follows: every thread has returned, so that
    nothing happens until another call is made, and the flag stays behind
    with [building] clear. *)
Theorem late_flag_drops_call :
  exists before after,
    run (start (mkFS None None)) call_while_building = Some before /\
    threads before = [InBuild; AtSetQueued] /\
    building (srv (shared before)) = true /\
    builds before = 1%nat /\
    run before flag_after_finally = Some after /\
    threads after = [Returned; Returned] /\
    building (srv (shared after)) = false /\
    build_queued (srv (shared after)) = true /\
    builds after = 1%nat /\
    (forall a, is_arrive a = false -> step after a = None) /\
    (forall acts sys,
       Forall (fun a => is_arrive a = false) acts ->
       run after acts = Some sys -> builds sys = 1%nat).
Proof.
  eexists. eexists.
  split; [reflexivity|]. split; [reflexivity|]. split; [reflexivity|].
  split; [reflexivity|]. split; [vm_compute; reflexivity|].
  split; [reflexivity|]. split; [reflexivity|]. split; [reflexivity|].
  split; [reflexivity|]. split.
  - intros a Ha. now apply all_returned_stuck.
  - intros acts sys Hf Hr. apply all_returned_rest in Hr; [|reflexivity|exact Hf].
    now subst sys.
Qed.

End InterleavingFacts.

(* ===================================================================== *)
(** ** Change watcher *)
(* ===================================================================== *)

Module WatcherFacts.
Import Watcher.

Lemma Qltb_true a b : Qltb a b = true <-> (a < b)%Q.
Proof.
  unfold Qltb. destruct (Qle_bool b a) eqn:E; cbn.
  - apply Qle_bool_iff in E. split; [discriminate|intros; lra].
  - split; [intros _|reflexivity].
    assert (~ (b <= a)%Q) by (intros H; apply Qle_bool_iff in H; congruence).
    lra.
Qed.

Lemma Qltb_false a b : Qltb a b = false <-> (b <= a)%Q.
Proof.
  unfold Qltb. destruct (Qle_bool b a) eqn:E; cbn.
  - apply Qle_bool_iff in E. tauto.
  - split; [discriminate|]. intros H. apply Qle_bool_iff in H. congruence.
Qed.

(** On a path that passes the filters the decision is the debounce test. *)
Lemma should_trigger_valid w path now :
  valid_source path = true ->
  should_trigger_build w path now
  = negb (Qltb (now - last_build w) (debounce_seconds w)).
Proof.
  unfold valid_source, should_trigger_build. intros H.
  apply andb_prop in H as [H1 H2]. rewrite H1; cbn.
  apply negb_true_iff in H2. rewrite H2.
  now destruct (Qltb _ _).
Qed.

Lemma should_trigger_invalid w path now :
  valid_source path = false -> should_trigger_build w path now = false.
Proof.
  unfold valid_source, should_trigger_build. intros H.
  destruct (PyStr.endswith ".swift" path); cbn in *; [|reflexivity].
  apply negb_false_iff in H. now rewrite H.
Qed.

Lemma dispatch_on_modified w d :
  dispatch w d = on_modified w (event d) (now d) (now' d).
Proof. unfold dispatch, on_created. now destruct (kind d). Qed.

(** An accepted event found the gate open and stamps it; a rejected one
    leaves the watcher as it was. *)
Lemma on_modified_accept w ev t t' w' :
  on_modified w ev t t' = (w', true) ->
  is_directory ev = false /\ valid_source (src_path ev) = true /\
  (debounce_seconds w <= t - last_build w)%Q /\
  w' = mkWatcher t' (debounce_seconds w).
Proof.
  unfold on_modified. destruct (is_directory ev); [discriminate|].
  destruct (should_trigger_build w (src_path ev) t) eqn:E; [|discriminate].
  intros [= <-].
  destruct (valid_source (src_path ev)) eqn:V.
  - rewrite should_trigger_valid in E by assumption.
    apply negb_true_iff, Qltb_false in E. auto.
  - rewrite should_trigger_invalid in E by assumption. discriminate.
Qed.

Lemma on_modified_reject w ev t t' w' :
  on_modified w ev t t' = (w', false) -> w' = w.
Proof.
  unfold on_modified. destruct (is_directory ev); [now intros [= <-]|].
  destruct (should_trigger_build w (src_path ev) t); [discriminate|].
  now intros [= <-].
Qed.

Lemma on_modified_open w ev t t' :
  is_directory ev = false -> valid_source (src_path ev) = true ->
  (debounce_seconds w <= t - last_build w)%Q ->
  on_modified w ev t t' = (mkWatcher t' (debounce_seconds w), true).
Proof.
  intros Hd Hv Hg. unfold on_modified. rewrite Hd.
  rewrite should_trigger_valid by assumption.
  apply Qltb_false in Hg. now rewrite Hg.
Qed.

Lemma on_modified_closed w ev t t' :
  (t - last_build w < debounce_seconds w)%Q ->
  on_modified w ev t t' = (w, false).
Proof.
  intros Hg. unfold on_modified. destruct (is_directory ev); [reflexivity|].
  destruct (valid_source (src_path ev)) eqn:V.
  - rewrite should_trigger_valid by assumption.
    apply Qltb_true in Hg. now rewrite Hg.
  - now rewrite should_trigger_invalid.
Qed.

(** Once the gate was stamped inside a window shorter than the debounce time,
    no other event of the window is accepted. *)
Lemma deliver_closed t0 width ds : forall w,
  debounce_seconds w = 1%Q -> (width < 1)%Q ->
  (t0 <= last_build w <= t0 + width)%Q ->
  Forall (in_window t0 width) ds ->
  deliver w ds = (w, O).
Proof.
  induction ds as [|d ds IH]; intros w Hdeb Hw Hl Hin; [reflexivity|].
  inversion Hin as [|? ? (H1 & H2 & H3 & H4) Hrest]; subst.
  cbn [deliver]. rewrite dispatch_on_modified.
  rewrite on_modified_closed by (rewrite Hdeb; lra).
  now rewrite (IH w Hdeb Hw Hl Hrest).
Qed.

Lemma deliver_at_most_once t0 width ds : forall w,
  debounce_seconds w = 1%Q -> (width < 1)%Q ->
  Forall (in_window t0 width) ds ->
  (snd (deliver w ds) <= 1)%nat.
Proof.
  induction ds as [|d ds IH]; intros w Hdeb Hw Hin; [cbn; lia|].
  inversion Hin as [|? ? (H1 & H2 & H3 & H4) Hrest]; subst.
  cbn [deliver]. rewrite dispatch_on_modified.
  destruct (on_modified w (event d) (now d) (now' d)) as [w1 [|]] eqn:E.
  - apply on_modified_accept in E as (_ & _ & _ & ->).
    rewrite (deliver_closed t0 width ds) by (cbn; auto). cbn. lia.
  - apply on_modified_reject in E as ->.
    specialize (IH w Hdeb Hw Hrest).
    destruct (deliver w ds) as [w2 n]. exact IH.
Qed.

(** C3 (the debounce gate is global).  For a watcher with the debounce time
    of the code, 1 second:
    (a) an event is accepted only if at least 1 second lies between the
    last accepted event ([last_build]) and the handler's clock read, and an
    accepted event stores the clock in [last_build];
    (b) a rejected event leaves the watcher unchanged;
    (c) on paths that pass the filters the decision does not depend on the
    path: the gate is one for all files;
    (d) any events whose clock reads lie within 200 ms trigger at most one
    build request;
    (e) when these events are for source files that pass the filters and the
    gate is open at the first of them, they trigger exactly one: five saves
    of five files within 200 ms make one call of [build_wasm]. *)
Theorem debounce_gate_global (w : SourceWatcher) :
  debounce_seconds w = 1%Q ->
  (forall ev t t' w',
     on_modified w ev t t' = (w', true) ->
     (1 <= t - last_build w)%Q /\ last_build w' = t' /\ debounce_seconds w' = 1%Q) /\
  (forall ev t t' w', on_modified w ev t t' = (w', false) -> w' = w) /\
  (forall p q t,
     valid_source p = true -> valid_source q = true ->
     should_trigger_build w p t = should_trigger_build w q t) /\
  (forall t0 ds,
     Forall (in_window t0 (1 # 5)) ds -> (snd (deliver w ds) <= 1)%nat) /\
  (forall t0 d ds,
     Forall for_valid_source (d :: ds) ->
     Forall (in_window t0 (1 # 5)) (d :: ds) ->
     (1 <= now d - last_build w)%Q ->
     snd (deliver w (d :: ds)) = 1%nat).
Proof.
  intros Hdeb. repeat split.
  - apply on_modified_accept in H as (_ & _ & H & _). now rewrite Hdeb in H.
  - apply on_modified_accept in H as (_ & _ & _ & ->). reflexivity.
  - apply on_modified_accept in H as (_ & _ & _ & ->). exact Hdeb.
  - intros ev t t' w'. apply on_modified_reject.
  - intros p q t Hp Hq. now rewrite !should_trigger_valid.
  - intros t0 ds Hin. apply (deliver_at_most_once t0 (1 # 5)); auto. reflexivity.
  - intros t0 d ds Hv Hin Hopen.
    inversion Hv as [|? ? (Hd & Hs) _]; subst.
    inversion Hin as [|? ? (H1 & H2 & H3 & H4) Hrest]; subst.
    cbn [deliver]. rewrite dispatch_on_modified.
    rewrite on_modified_open by (auto; rewrite Hdeb; exact Hopen).
    rewrite (deliver_closed t0 (1 # 5) ds); cbn; auto. reflexivity.
Qed.

Lemma burst_valid : Forall for_valid_source burst.
Proof. repeat constructor. Defined.

Lemma burst_in_window : Forall (in_window (1700000000 # 1) (1 # 5)) burst.
Proof.
  repeat constructor; unfold Qle; cbn; try apply Z.leb_le; try reflexivity;
    intros H; discriminate H.
Defined.

Lemma debounce_gate_global_witness :
  debounce_seconds init = 1%Q /\ snd (deliver init burst) = 1%nat.
Proof.
  split; [reflexivity|].
  destruct (debounce_gate_global init eq_refl) as (_ & _ & _ & _ & H).
  apply (H (1700000000 # 1)).
  - exact burst_valid.
  - exact burst_in_window.
  - unfold Qle; cbn. intros H'; discriminate H'.
Defined.

(** *** The path filter *)

Lemma split_nonempty sep s : PyStr.split sep s <> [].
Proof.
  destruct s as [|c s]; cbn; [discriminate|].
  destruct (Ascii.eqb c sep); [discriminate|].
  destruct (PyStr.split sep s); discriminate.
Qed.

(** The first segment starts with a dot exactly when the path does. *)
Lemma hd_split_dot s :
  dot_segment (hd "" (PyStr.split "/" s)) = PyStr.startswith "." s.
Proof.
  destruct s as [|c s]; [reflexivity|]. cbn [PyStr.split].
  destruct (Ascii.eqb_spec c "/") as [->|Hne]; [reflexivity|].
  assert (He : forall x, String.prefix "" x = true) by (now intros [|]).
  destruct (PyStr.split "/" s) as [|h t]; unfold dot_segment, PyStr.startswith;
    cbn; destruct (ascii_dec "." c); rewrite ?He; reflexivity.
Qed.

(** ['/.' in path] tests whether a segment after the first starts with a dot. *)
Lemma contains_dot_tail s :
  PyStr.contains "/." s = existsb dot_segment (tl (PyStr.split "/" s)).
Proof.
  induction s as [|c s IH]; [reflexivity|].
  change (PyStr.contains "/." (String c s))
    with (if String.prefix "/." (String c s) then true else PyStr.contains "/." s).
  change (String.prefix "/." (String c s))
    with (if ascii_dec "/" c then String.prefix "." s else false).
  cbn [PyStr.split]. destruct (Ascii.eqb_spec c "/") as [->|Hne].
  - destruct (ascii_dec "/" "/") as [_|n]; [|congruence]. cbn [tl].
    pose proof (hd_split_dot s) as Hhd. pose proof (split_nonempty "/" s) as Hne.
    destruct (PyStr.split "/" s) as [|h t]; [congruence|].
    cbn [hd tl existsb] in *. rewrite Hhd, <- IH. unfold PyStr.startswith.
    now destruct (String.prefix "." s).
  - destruct (ascii_dec "/" c) as [e|_]; [congruence|].
    destruct (PyStr.split "/" s) as [|h t]; exact IH.
Qed.

(** The convention of the specification against the test of the code: a
    path has a segment starting with a dot when its first segment does or
    when it contains ["/."]. *)
Lemma under_dot_directory_eq path :
  under_dot_directory path
  = PyStr.startswith "." path || PyStr.contains "/." path.
Proof.
  unfold under_dot_directory, segments.
  rewrite contains_dot_tail, <- hd_split_dot.
  pose proof (split_nonempty "/" path).
  destruct (PyStr.split "/" path); [congruence|reflexivity].
Qed.

Lemma absolute_not_dot path :
  is_absolute path = true -> PyStr.startswith "." path = false.
Proof.
  unfold is_absolute, PyStr.startswith. destruct path as [|c s]; [discriminate|].
  change (String.prefix "/" (String c s))
    with (if ascii_dec "/" c then String.prefix "" s else false).
  destruct (ascii_dec "/" c) as [<-|]; [reflexivity|discriminate].
Qed.

Lemma valid_source_dot path :
  PyStr.contains "/." path = true -> valid_source path = false.
Proof.
  intros H. unfold valid_source. rewrite H, orb_true_r. apply andb_false_r.
Qed.

Lemma valid_source_ext path :
  PyStr.endswith ".swift" path = false -> valid_source path = false.
Proof. intros H. unfold valid_source. now rewrite H. Qed.

Lemma on_modified_invalid w ev t t' :
  valid_source (src_path ev) = false -> on_modified w ev t t' = (w, false).
Proof.
  intros H. unfold on_modified. destruct (is_directory ev); [reflexivity|].
  now rewrite should_trigger_invalid.
Qed.

(** A string with a prefix is that prefix and a rest. *)
Lemma prefix_split p : forall s,
  String.prefix p s = true -> exists rest, s = p ++ rest.
Proof.
  induction p as [|a p IH]; intros s H; [now exists s|].
  destruct s as [|b s]; [discriminate|].
  change (String.prefix (String a p) (String b s))
    with (if ascii_dec a b then String.prefix p s else false) in H.
  destruct (ascii_dec a b) as [->|]; [|discriminate].
  destruct (IH _ H) as [rest ->]. now exists rest.
Qed.

(** ['/.build/' in path] implies ['/.' in path]: the first test of the code
    rejects nothing that the second would let through. *)
Lemma contains_build_dot path :
  PyStr.contains "/.build/" path = true -> PyStr.contains "/." path = true.
Proof.
  induction path as [|c s IH]; [discriminate|].
  change (PyStr.contains "/.build/" (String c s))
    with (if String.prefix "/.build/" (String c s) then true
          else PyStr.contains "/.build/" s).
  change (PyStr.contains "/." (String c s))
    with (if String.prefix "/." (String c s) then true else PyStr.contains "/." s).
  destruct (String.prefix "/.build/" (String c s)) eqn:Ep.
  - intros _. apply prefix_split in Ep as [rest ->]. reflexivity.
  - intros H. rewrite (IH H). now destruct (String.prefix "/." (String c s)).
Qed.

(** On the paths the observer reports, the test of the code is the
    convention of the specification: a segment of the path starts with a
    dot exactly when the path contains ["/."]. *)
Lemma reported_dot path :
  reported path = true ->
  under_dot_directory path = PyStr.contains "/." path.
Proof.
  unfold reported, SOURCE_DIRS, below, PyStr.startswith. cbn [existsb].
  rewrite orb_false_r, under_dot_directory_eq. intros H.
  apply orb_prop in H as [H|H]; [|apply orb_prop in H as [H|H]].
  - now rewrite (absolute_not_dot _ H).
  - apply prefix_split in H as [rest ->]. reflexivity.
  - apply prefix_split in H as [rest ->]. reflexivity.
Qed.

Lemma valid_source_reported path :
  reported path = true ->
  valid_source path
  = PyStr.endswith ".swift" path && negb (under_dot_directory path).
Proof.
  intros H. rewrite (reported_dot _ H). unfold valid_source.
  destruct (PyStr.contains "/.build/" path) eqn:Eb; [|reflexivity].
  now rewrite (contains_build_dot _ Eb).
Qed.

(** C5 (extension and path filter).  The observer reports absolute paths
    (cli/raven_dev.py) or paths below [Sources] and [../../Sources] (the
    TodoApp script).  For every such event, whatever the state of the gate,
    no build is triggered
    (a) when it is a directory event,
    (b) when its path does not end in [.swift],
    (c) when a segment of its path starts with a dot: the file lies under a
    dot-directory such as the [.build] cache.
    (d) Every other event, a modification of [Sources/App/Main.swift] for
    one, triggers a build exactly when the debounce gate is open.
    (e) [.build/debug/App.wasm] triggers nothing. *)
Theorem filter_on_reported_paths (w : SourceWatcher) (ev : WatchEvent) (t t' : Q) :
  reported (src_path ev) = true ->
  (is_directory ev = true -> on_modified w ev t t' = (w, false)) /\
  (PyStr.endswith ".swift" (src_path ev) = false ->
   on_modified w ev t t' = (w, false)) /\
  (under_dot_directory (src_path ev) = true ->
   on_modified w ev t t' = (w, false)) /\
  (is_directory ev = false ->
   PyStr.endswith ".swift" (src_path ev) = true ->
   under_dot_directory (src_path ev) = false ->
   ((debounce_seconds w <= t - last_build w)%Q ->
    on_modified w ev t t' = (mkWatcher t' (debounce_seconds w), true)) /\
   ((t - last_build w < debounce_seconds w)%Q ->
    on_modified w ev t t' = (w, false))) /\
  (reported "Sources/App/Main.swift" = true /\
   ((debounce_seconds w <= t - last_build w)%Q ->
    on_modified w (mkEvent "Sources/App/Main.swift" false) t t'
    = (mkWatcher t' (debounce_seconds w), true)) /\
   ((t - last_build w < debounce_seconds w)%Q ->
    on_modified w (mkEvent "Sources/App/Main.swift" false) t t' = (w, false))) /\
  on_modified w (mkEvent ".build/debug/App.wasm" false) t t' = (w, false).
Proof.
  intros Hr. pose proof (valid_source_reported _ Hr) as Hv.
  split; [|split; [|split; [|split; [|split]]]].
  - intros Hd. unfold on_modified. now rewrite Hd.
  - intros He. apply on_modified_invalid, valid_source_ext, He.
  - intros Hu. apply on_modified_invalid. rewrite Hv, Hu. apply andb_false_r.
  - intros Hd He Hu. rewrite He, Hu in Hv. split.
    + intros Hg. now apply on_modified_open.
    + intros Hg. now apply on_modified_closed.
  - split; [reflexivity|]. split.
    + intros Hg. now apply on_modified_open.
    + intros Hg. now apply on_modified_closed.
  - reflexivity.
Qed.

Lemma filter_on_reported_paths_witness :
  reported "/home/dev/App/.build/checkouts/Dep/Sources/Dep/A.swift" = true /\
  under_dot_directory "/home/dev/App/.build/checkouts/Dep/Sources/Dep/A.swift" = true /\
  on_modified init
    (mkEvent "/home/dev/App/.build/checkouts/Dep/Sources/Dep/A.swift" false)
    (1700000000 # 1) (1700000000 # 1)
  = (init, false).
Proof.
  split; [reflexivity|]. split; [reflexivity|].
  destruct (filter_on_reported_paths init
              (mkEvent "/home/dev/App/.build/checkouts/Dep/Sources/Dep/A.swift" false)
              (1700000000 # 1) (1700000000 # 1) eq_refl) as (_ & _ & H & _).
  apply H. reflexivity.
Defined.

End WatcherFacts.

(* ===================================================================== *)
(** ** Reload script *)
(* ===================================================================== *)

Module ReloadFacts.
Import Reload.

Lemma truthy_spec v : truthy v = true <-> exists s, v = Some s /\ s <> "".
Proof.
  destruct v as [s|]; cbn.
  - rewrite negb_true_iff. split.
    + intros H. exists s. split; [reflexivity|]. now apply String.eqb_neq.
    + intros (s' & [= <-] & Hne). now apply String.eqb_neq.
  - split; [discriminate|]. intros (s & H & _). discriminate.
Qed.

Lemma strict_ne_spec a b : strict_ne a b = true <-> a <> b.
Proof.
  destruct a as [x|], b as [y|]; cbn; try (split; [discriminate|congruence]);
    try (split; [intros _|reflexivity]; discriminate).
  rewrite negb_true_iff, String.eqb_neq. split; congruence.
Qed.

(** C6, as the code has it (baseline, then compare).
    (a) The first observation after the page loads records what it observed
    and does not reload, a fingerprint being present or not.
    (b) More generally, while no fingerprint was recorded ([lastHash] is
    [null]) an observation is only recorded.
    (c) Once a baseline [b] is recorded, a poll reloads the page exactly when
    the fingerprint it observes is a non-empty string different from [b], and
    the baseline stays [b].
    (d) A failed request changes nothing.
    (e) The polls are 2000 ms apart. *)
Theorem reload_policy :
  (forall h fs, page (Data h :: fs) = false :: polls h fs) /\
  (forall h, checkForUpdates None (Data h) = (h, false)) /\
  (forall b h,
     fst (checkForUpdates (Some b) (Data h)) = Some b /\
     (snd (checkForUpdates (Some b) (Data h)) = true <->
      exists s, h = Some s /\ s <> "" /\ s <> b)) /\
  (forall lastHash, checkForUpdates lastHash Failed = (lastHash, false)) /\
  poll_interval = 2000%nat.
Proof.
  split; [|split; [|split; [|split]]]; try reflexivity.
  - intros b h. cbn.
    destruct (truthy h && strict_ne h (Some b)) eqn:E; cbn.
    + split; [reflexivity|]. split; [intros _|reflexivity].
      apply andb_prop in E as [Ht Hn].
      apply truthy_spec in Ht as (s & -> & Hs). apply strict_ne_spec in Hn.
      exists s. repeat split; congruence.
    + split; [reflexivity|]. split; [discriminate|].
      intros (s & -> & Hs & Hb). exfalso.
      assert (truthy (Some s) = true) by (apply truthy_spec; eauto).
      assert (strict_ne (Some s) (Some b) = true) by (apply strict_ne_spec; congruence).
      rewrite H, H0 in E. discriminate.
Qed.

(** C6 as stated fails: the first observation finds no fingerprint; the
    second finds one, non-null and different from what the first recorded,
    and the page is not reloaded: the script records it as the baseline. *)
Lemma null_baseline_suppresses_reload :
  page [Data None; Data (Some "5d41402abc4b2a76b9719d911017c592")] = [false; false] /\
  checkForUpdates None (Data None) = (None, false) /\
  Some "5d41402abc4b2a76b9719d911017c592" <> (None : option string) /\
  checkForUpdates None (Data (Some "5d41402abc4b2a76b9719d911017c592"))
  = (Some "5d41402abc4b2a76b9719d911017c592", false).
Proof. repeat split. discriminate. Qed.

End ReloadFacts.

(* ===================================================================== *)
(** ** Response headers *)
(* ===================================================================== *)

Module HeadersFacts.
Import Headers.

Lemma no_cache_lookup h :
  no_cache h !! "Cache-Control" = Some "no-cache, no-store, must-revalidate" /\
  no_cache h !! "Pragma" = Some "no-cache" /\
  no_cache h !! "Expires" = Some "0".
Proof. unfold no_cache. repeat split; by simplify_map_eq. Qed.

Lemma no_cache_other h k :
  k <> "Cache-Control" -> k <> "Pragma" -> k <> "Expires" ->
  no_cache h !! k = h !! k.
Proof. intros. unfold no_cache. by simplify_map_eq. Qed.

(** C9, as the code has it (header policy).  For every response [r]:
    (a) with the WASM MIME type, the dev server and the static server both
    put the three no-cache headers on it;
    (b) the dev server puts [Access-Control-Allow-Origin: *] on it, whatever
    its type;
    (c) with another MIME type, such as that of [index.html], the dev server
    changes no header but that one and the static server changes nothing;
    (d) the static server never touches [Access-Control-Allow-Origin]. *)
Theorem header_policy (r : Response) :
  (mimetype r = "application/wasm" ->
   has_no_cache (add_headers_dev r) /\ has_no_cache (add_headers_serve r)) /\
  has_cors (add_headers_dev r) /\
  (mimetype r <> "application/wasm" ->
   (forall k, k <> "Access-Control-Allow-Origin" ->
      headers (add_headers_dev r) !! k = headers r !! k) /\
   add_headers_serve r = r) /\
  headers (add_headers_serve r) !! "Access-Control-Allow-Origin"
  = headers r !! "Access-Control-Allow-Origin".
Proof.
  unfold has_no_cache, has_cors, add_headers_dev, add_headers_serve.
  destruct r as [m h]; cbn.
  destruct (String.eqb_spec m "application/wasm") as [->|Hne].
  - pose proof (no_cache_lookup h) as (H1 & H2 & H3).
    repeat split; try congruence; try (by simplify_map_eq).
    by rewrite no_cache_other.
  - repeat split; try congruence; try (by simplify_map_eq).
    intros k Hk. by rewrite lookup_insert_ne.
Qed.

(** C9 as stated fails for the static server: its responses, the artifact
    or [index.html], leave it without a cross-origin header. *)
Lemma static_server_sends_no_cors :
  headers (add_headers_serve (mkResponse "application/wasm" ∅))
    !! "Access-Control-Allow-Origin" = None /\
  headers (add_headers_serve (mkResponse "text/html" ∅))
    !! "Access-Control-Allow-Origin" = None.
Proof. split; reflexivity. Qed.

End HeadersFacts.

(* ===================================================================== *)
(** ** Error lines *)
(* ===================================================================== *)

Module ErrorLinesFacts.
Import ErrorLines.

(** C8, as the code has it (error lines of a failed build).  The error lines
    are the lines of the captured output whose lower-case form contains
    ["error:"], in the order of the output.
    Dev loop ([build_wasm]): with at most 5 error lines all are printed and
    nothing else; with more, the first 5 are printed, then one line giving
    the count of the others.
    One-shot build ([build_command], output captured and not empty): the
    first 10 error lines are printed, at most 10 lines in all. *)
Theorem error_line_policy (stderr : string) :
  (forall line,
     In line (errors stderr) <->
     In line (PyStr.split PyStr.newline_char stderr) /\
     PyStr.contains "error:" (PyStr.lower line) = true) /\
  ((List.length (errors stderr) <= 5)%nat ->
   dev_report stderr = List.map show (errors stderr)) /\
  ((5 < List.length (errors stderr))%nat ->
   dev_report stderr
   = (List.map show (List.firstn 5 (errors stderr))
      ++ ["  ... and " +:+ PyStr.str_of_nat (List.length (errors stderr) - 5)
          +:+ " more errors"])%list /\
   List.length (dev_report stderr) = 6%nat) /\
  (stderr <> "" ->
   build_report false (Some stderr) = List.map show (List.firstn 10 (errors stderr))) /\
  (List.length (build_report false (Some stderr)) <= 10)%nat.
Proof.
  split; [|split; [|split; [|split]]].
  - intros line. unfold errors. rewrite List.filter_In. tauto.
  - intros Hle. unfold dev_report.
    rewrite List.firstn_all2 by exact Hle.
    destruct (Nat.ltb_spec 5 (List.length (errors stderr))); [lia|].
    apply List.app_nil_r.
  - intros Hlt. unfold dev_report.
    destruct (Nat.ltb_spec 5 (List.length (errors stderr))); [|lia].
    split; [reflexivity|].
    rewrite List.length_app, List.length_map, List.length_firstn.
    rewrite Nat.min_l by lia. reflexivity.
  - intros Hne. unfold build_report; cbn.
    apply String.eqb_neq in Hne. now rewrite Hne.
  - unfold build_report; cbn. destruct (String.eqb stderr ""); cbn; [lia|].
    rewrite List.length_map, List.length_firstn. lia.
Qed.

(** C8 as stated fails in the one-shot build: of eleven error lines the
    first ten are printed and nothing tells of the eleventh, where the dev
    loop prints five and the count of the six others.  A line that names an
    error without the marker ["error:"] is not an error line. *)
Lemma one_shot_build_prints_no_count :
  List.length (errors eleven_errors) = 11%nat /\
  build_report false (Some eleven_errors)
  = [ "  A.swift:1:1: error: e1"; "  A.swift:2:1: error: e2";
      "  A.swift:3:1: Error: e3"; "  A.swift:4:1: ERROR: e4";
      "  A.swift:5:1: error: e5"; "  A.swift:6:1: error: e6";
      "  A.swift:7:1: error: e7"; "  A.swift:8:1: error: e8";
      "  A.swift:9:1: error: e9"; "  A.swift:10:1: error: e10" ] /\
  dev_report eleven_errors
  = [ "  A.swift:1:1: error: e1"; "  A.swift:2:1: error: e2";
      "  A.swift:3:1: Error: e3"; "  A.swift:4:1: ERROR: e4";
      "  A.swift:5:1: error: e5"; "  ... and 6 more errors" ] /\
  PyStr.contains "error" (PyStr.lower "ld: fatal error in module App") = true /\
  errors "ld: fatal error in module App" = [].
Proof. repeat split. Qed.

End ErrorLinesFacts.

(* ===================================================================== *)
(** ** Injection of the reload script *)
(* ===================================================================== *)

Module InjectFacts.
Import Inject.

Lemma prefix_empty x : String.prefix "" x = true.
Proof. now destruct x. Qed.

Lemma prefix_append a : forall p b,
  String.prefix p a = true -> String.prefix p (a ++ b) = true.
Proof.
  induction a as [|y a IH]; intros [|x p] b H;
    try apply prefix_empty; try discriminate.
  change (String.prefix (String x p) (String y a))
    with (if ascii_dec x y then String.prefix p a else false) in H.
  change (String.prefix (String x p) (String y a ++ b))
    with (if ascii_dec x y then String.prefix p (a ++ b) else false).
  destruct (ascii_dec x y); [now apply IH|discriminate].
Qed.

Lemma contains_cons m c s :
  PyStr.contains m s = true -> PyStr.contains m (String c s) = true.
Proof.
  intros H.
  change (PyStr.contains m (String c s))
    with (if String.prefix m (String c s) then true else PyStr.contains m s).
  rewrite H. now destruct (String.prefix m (String c s)).
Qed.

Lemma contains_prefix m s : String.prefix m s = true -> PyStr.contains m s = true.
Proof. intros H. destruct s; cbn [PyStr.contains]; now rewrite H. Qed.

(** What occurs in [a] occurs in [a ++ b]. *)
Lemma contains_append_l m a : forall b,
  PyStr.contains m a = true -> PyStr.contains m (a ++ b) = true.
Proof.
  induction a as [|c a IH]; intros b H.
  - change (PyStr.contains m "")
      with (if String.prefix m "" then true else false) in H.
    destruct (String.prefix m "") eqn:E; [|discriminate].
    apply contains_prefix. now apply (prefix_append "").
  - change (PyStr.contains m (String c a))
      with (if String.prefix m (String c a) then true else PyStr.contains m a) in H.
    destruct (String.prefix m (String c a)) eqn:E.
    + apply contains_prefix. now apply (prefix_append (String c a)).
    + apply (contains_cons m c (a ++ b)). now apply IH.
Qed.

(** After [replace], whatever occurs in the replacement text occurs in the
    result as soon as the text replaced occurred at all. *)
Lemma replace_contains m old new s :
  old <> "" ->
  PyStr.contains m new = true ->
  PyStr.contains old s = true ->
  PyStr.contains m (PyStr.replace old new s) = true.
Proof.
  intros Hold Hm. unfold PyStr.replace.
  induction s as [|c s IH]; intros H.
  - destruct old; [congruence|discriminate].
  - change (PyStr.contains old (String c s))
      with (if String.prefix old (String c s) then true else PyStr.contains old s) in H.
    cbn [PyStr.replace_from].
    destruct (String.prefix old (String c s)).
    + now apply contains_append_l.
    + now apply contains_cons, IH.
Qed.

Section Script.
Variable script : string.
Hypothesis Hmarked : PyStr.contains "raven-hot-reload" script = true.

Lemma inject_marks content :
  PyStr.contains "raven-hot-reload" content = false ->
  PyStr.contains "</body>" content = true ->
  exists content',
    inject script (Some content) = Some content' /\
    PyStr.contains "raven-hot-reload" content' = true.
Proof.
  intros Hm Hb. unfold inject. rewrite Hm, Hb. eexists; split; [reflexivity|].
  apply replace_contains; [discriminate| |exact Hb].
  now apply contains_append_l.
Qed.

Lemma inject_facts (file : option string) :
  (file = None -> inject script file = None) /\
  (forall content,
     file = Some content ->
     PyStr.contains "raven-hot-reload" content = true \/
     PyStr.contains "</body>" content = false ->
     inject script file = file) /\
  inject script (inject script file) = inject script file.
Proof.
  split; [now intros ->|]. split.
  - intros content -> [H|H]; unfold inject.
    + now rewrite H.
    + rewrite H. now destruct (PyStr.contains "raven-hot-reload" content).
  - destruct file as [content|]; [|reflexivity].
    destruct (PyStr.contains "raven-hot-reload" content) eqn:Hm.
    + unfold inject at 2. rewrite Hm. unfold inject. now rewrite Hm.
    + destruct (PyStr.contains "</body>" content) eqn:Hb.
      * destruct (inject_marks content Hm Hb) as (c' & -> & Hc').
        unfold inject. now rewrite Hc'.
      * unfold inject at 2. rewrite Hm, Hb. unfold inject. now rewrite Hm, Hb.
Qed.
End Script.

Lemma script_marked : PyStr.contains "raven-hot-reload" script = true.
Proof. vm_compute. reflexivity. Qed.

Lemma hot_reload_script_marked :
  PyStr.contains "raven-hot-reload" hot_reload_script = true.
Proof. vm_compute. reflexivity. Qed.

(** C10 (injection is idempotent).  For every state of the HTML file, with
    the function of cli/raven_dev.py and with that of
    Examples/TodoApp/raven-dev.py alike: a file that does not exist stays
    absent; a file whose content holds the marker [raven-hot-reload], or no
    [</body>] tag, is left as it is; and injecting twice gives the file that
    injecting once gives. *)
Theorem inject_idempotent (file : option string) :
  ((file = None -> inject_hot_reload file = None) /\
   (forall content,
      file = Some content ->
      PyStr.contains "raven-hot-reload" content = true \/
      PyStr.contains "</body>" content = false ->
      inject_hot_reload file = file) /\
   inject_hot_reload (inject_hot_reload file) = inject_hot_reload file) /\
  ((file = None -> inject_hot_reload_script file = None) /\
   (forall content,
      file = Some content ->
      PyStr.contains "raven-hot-reload" content = true \/
      PyStr.contains "</body>" content = false ->
      inject_hot_reload_script file = file) /\
   inject_hot_reload_script (inject_hot_reload_script file)
   = inject_hot_reload_script file).
Proof.
  split.
  - exact (inject_facts script script_marked file).
  - exact (inject_facts hot_reload_script hot_reload_script_marked file).
Qed.

End InjectFacts.

(* ===================================================================== *)
(** ** Build coordinator: one call on its own *)
(* ===================================================================== *)

Module CoordinatorMore.
Import Coordinator.

Lemma build_wasm_idle (env : BuildEnv) (w : World) :
  building (srv w) = false ->
  build_queued (srv w) = false ->
  exists b w',
    build_wasm env w = (RetBool b, w', false) /\
    building (srv w') = false /\ build_queued (srv w') = false /\
    (b = true <-> exists d, clean_success env d).
Proof.
  intros Hb Hq. unfold build_wasm, enter. rewrite Hb.
  set (w1 := on_srv _ w).
  assert (Hq1 : build_queued (srv w1) = false) by exact Hq.
  pose proof (CoordinatorFacts.try_except_flags env w1) as [_ Hf].
  destruct (succeeds env) as [d|] eqn:Es.
  - destruct (CoordinatorFacts.try_except_success env w1 d Es) as (H1 & _).
    destruct (try_except env w1) as [r w2]; cbn in H1, Hf.
    pose proof (CoordinatorFacts.finally_block_flags (srv w2)) as (F1 & F2 & _ & F4).
    destruct (finally_block (srv w2)) as [s3 spawn]; cbn in *.
    exists r, (on_srv (fun _ => s3) w2). subst r.
    rewrite F4, Hf, Hq1. repeat split; auto.
    intros _. exists d. now apply CoordinatorFacts.succeeds_clean.
  - destruct (CoordinatorFacts.try_except_failure env w1 Es) as (H1 & _).
    destruct (try_except env w1) as [r w2]; cbn in H1, Hf.
    pose proof (CoordinatorFacts.finally_block_flags (srv w2)) as (F1 & F2 & _ & F4).
    destruct (finally_block (srv w2)) as [s3 spawn]; cbn in *.
    exists r, (on_srv (fun _ => s3) w2). subst r.
    rewrite F4, Hf, Hq1. repeat split; auto; try discriminate.
    intros (d & Hd). apply CoordinatorFacts.succeeds_clean in Hd. congruence.
Qed.

(** X3.  A call of [build_wasm] on an idle server that no other thread
    interrupts returns [True] or [False], never [None]; it leaves both flags
    cleared and starts no thread; and it returns [True] exactly when the
    cycle ran clean. *)
Theorem build_wasm_direct (env : BuildEnv) (w : World) :
  building (srv w) = false ->
  build_queued (srv w) = false ->
  exists b w',
    build_wasm env w = (RetBool b, w', false) /\
    building (srv w') = false /\ build_queued (srv w') = false /\
    (b = true <-> exists d, clean_success env d).
Proof. exact (build_wasm_idle env w). Qed.

Lemma build_wasm_direct_witness :
  exists b w',
    build_wasm timeout_env (mkWorld init served_artifact []) = (RetBool b, w', false) /\
    building (srv w') = false /\ build_queued (srv w') = false /\
    (b = true <-> exists d, clean_success timeout_env d).
Proof.
  apply (build_wasm_direct timeout_env (mkWorld init served_artifact [])); reflexivity.
Defined.

Local Opaque ErrorLines.dev_report.

(** The served file after the rest of a build cycle: untouched, or [copy2]
    was called on the artifact of a command that exited with status 0. *)
Lemma try_except_served env w :
  wasm_file (fs (snd (try_except env w))) = wasm_file (fs w) \/
  (exists err, proc env = Exited 0 err) /\
  exists d, produced env = Some d /\
    ((copy_raises env = false /\
      wasm_file (fs (snd (try_except env w))) = Some d) \/
     (copy_raises env = true /\
      exists d', copy_leaves env = Some d' /\
                 wasm_file (fs (snd (try_except env w))) = Some d')).
Proof.
  destruct env as [[rc err| |] [d'|] [|] [d''|] [|] [|]];
    unfold try_except, try_block, subprocess_run, copy2, get_wasm_hash,
      stat, slice8, bind, modify, gets, ret, raise; cbn;
    try (destruct (Z.eqb_spec rc 0) as [->|Hne]; cbn); auto;
    right; (split; [eauto|]); exists d'; (split; [reflexivity|]);
    first [left; split; reflexivity | right; split; [reflexivity|eauto]].
Qed.

(** X4.  A call of [build_wasm] that no other thread interrupts changes the
    artifact in the served directory only inside [shutil.copy2]: if the
    served file differs after the call, then no build was in flight at
    entry, the command exited with status 0 and its artifact existed, so
    that [copy2] was called; when [copy2] returned, the served file is that
    artifact, and when it raised, the served file is what the broken copy
    left of it.  Hence after a non-zero exit, a timeout, a command that could
    not be run or a missing artifact the served file is the one from
    before. *)
Theorem served_artifact_changes_only_by_copy (env : BuildEnv) (w : World) :
  wasm_file (fs (snd (fst (build_wasm env w)))) <> wasm_file (fs w) ->
  building (srv w) = false /\
  (exists err, proc env = Exited 0 err) /\
  exists d, produced env = Some d /\
    ((copy_raises env = false /\
      wasm_file (fs (snd (fst (build_wasm env w)))) = Some d) \/
     (copy_raises env = true /\
      exists d', copy_leaves env = Some d' /\
                 wasm_file (fs (snd (fst (build_wasm env w)))) = Some d')).
Proof.
  unfold build_wasm, enter. destruct (building (srv w)) eqn:Hb; cbn.
  - intros H. now contradiction H.
  - set (w1 := on_srv _ w).
    assert (Hw1 : wasm_file (fs w1) = wasm_file (fs w)) by reflexivity.
    pose proof (try_except_served env w1) as Hs.
    destruct (try_except env w1) as [r w2]; cbn in Hs.
    destruct (finally_block (srv w2)) as [s3 spawn]; cbn.
    intros Hne. split; [reflexivity|].
    destruct Hs as [Hs|Hs]; [congruence|exact Hs].
Qed.

Lemma served_artifact_changes_only_by_copy_witness :
  building (srv (mkWorld init served_artifact [])) = false /\
  (exists err, proc broken_copy_env = Exited 0 err) /\
  exists d, produced broken_copy_env = Some d /\
    ((copy_raises broken_copy_env = false /\
      wasm_file (fs (snd (fst (build_wasm broken_copy_env
                                 (mkWorld init served_artifact []))))) = Some d) \/
     (copy_raises broken_copy_env = true /\
      exists d', copy_leaves broken_copy_env = Some d' /\
                 wasm_file (fs (snd (fst (build_wasm broken_copy_env
                                            (mkWorld init served_artifact [])))))
                 = Some d')).
Proof.
  apply (served_artifact_changes_only_by_copy broken_copy_env
           (mkWorld init served_artifact [])).
  cbn. discriminate.
Defined.

End CoordinatorMore.

(* ===================================================================== *)
(** ** Change watcher: what a rejected event leaves behind, watched roots *)
(* ===================================================================== *)

Module WatcherMore.
Import Watcher.

(** X7.  An event the handler rejects is forgotten: the events after it are
    treated as if it had never been delivered.  A file saved while the gate
    is closed triggers no build later either. *)
Theorem rejected_event_forgotten (w : SourceWatcher) (d : Delivery) (ds : list Delivery) :
  snd (dispatch w d) = false ->
  deliver w (d :: ds) = deliver w ds.
Proof.
  intros H. cbn [deliver]. rewrite WatcherFacts.dispatch_on_modified in *.
  destruct (on_modified w (event d) (now d) (now' d)) as [w1 fired] eqn:E.
  cbn in H. subst fired. apply WatcherFacts.on_modified_reject in E as ->.
  now destruct (deliver w ds).
Qed.

Lemma rejected_event_forgotten_witness :
  deliver (mkWatcher (1700000000 # 1) 1)
    (mkDelivery Modified (mkEvent "/app/Sources/App/Main.swift" false)
                (17000000005 # 10) (17000000005 # 10)
     :: [mkDelivery Modified (mkEvent "/app/Sources/App/Main.swift" false)
                    (1700000002 # 1) (1700000002 # 1)])
  = deliver (mkWatcher (1700000000 # 1) 1)
      [mkDelivery Modified (mkEvent "/app/Sources/App/Main.swift" false)
                  (1700000002 # 1) (1700000002 # 1)].
Proof.
  apply (rejected_event_forgotten (mkWatcher (1700000000 # 1) 1)).
  reflexivity.
Defined.

Lemma contains_append_r m b a :
  PyStr.contains m b = true -> PyStr.contains m (a ++ b) = true.
Proof.
  intros H. induction a as [|c a IH]; [exact H|].
  now apply (InjectFacts.contains_cons m c (a ++ b)).
Qed.

(** X8.  A path with a [..] segment after a slash never triggers a build.
    So no file below the watched root [../../Sources], the framework sources
    that Examples/TodoApp/raven-dev.py and [get_config] add to the watched
    directories, ever does: created or modified, whatever the gate. *)
Theorem parent_segment_never_triggers
    (w : SourceWatcher) (a b : string) (dir : bool) (k : Kind) (t t' : Q) :
  dispatch w (mkDelivery k (mkEvent (a ++ "/.." ++ b) dir) t t') = (w, false) /\
  dispatch w (mkDelivery k (mkEvent (a ++ "../../Sources" ++ b) dir) t t') = (w, false).
Proof.
  split; rewrite WatcherFacts.dispatch_on_modified; cbn [event now now'];
    apply WatcherFacts.on_modified_invalid, WatcherFacts.valid_source_dot;
    cbn [src_path]; apply contains_append_r;
    apply InjectFacts.contains_append_l; reflexivity.
Qed.

End WatcherMore.

(* ===================================================================== *)
(** ** Reload script: when the page reloads *)
(* ===================================================================== *)

Module ReloadMore.
Import Reload.

Lemma check_baseline b f : fst (checkForUpdates (Some b) f) = Some b.
Proof.
  destruct f as [|h]; [reflexivity|]. cbn.
  now destruct (truthy h && strict_ne h (Some b)).
Qed.

Lemma check_reload b f :
  snd (checkForUpdates (Some b) f) = true <->
  exists s, f = Data (Some s) /\ s <> "" /\ s <> b.
Proof.
  destruct f as [|h]; cbn.
  - split; [discriminate|]. intros (s & H & _). discriminate.
  - destruct (truthy h && strict_ne h (Some b)) eqn:E; cbn.
    + split; [intros _|reflexivity]. apply andb_prop in E as [Ht Hn].
      apply ReloadFacts.truthy_spec in Ht as (s & -> & Hs).
      apply ReloadFacts.strict_ne_spec in Hn. exists s. repeat split; congruence.
    + split; [discriminate|]. intros (s & [= ->] & Hs & Hb). exfalso.
      assert (truthy (Some s) = true) by (apply ReloadFacts.truthy_spec; eauto).
      assert (strict_ne (Some s) (Some b) = true)
        by (apply ReloadFacts.strict_ne_spec; congruence).
      rewrite H, H0 in E. discriminate.
Qed.

(** X9.  With a baseline [b] recorded, the page reloads during a series of
    polls exactly when one of them observes a non-empty fingerprint other
    than [b]; failed requests and [null] never reload it.  Until then the
    baseline stays [b] and every poll is made: polling does not stop. *)
Theorem reload_iff_new_fingerprint (b : string) (fs : list Fetch) :
  (In true (polls (Some b) fs) <->
   exists s, In (Data (Some s)) fs /\ s <> "" /\ s <> b) /\
  (List.length (polls (Some b) fs) <= List.length fs)%nat /\
  (~ In true (polls (Some b) fs) ->
   polls (Some b) fs = List.repeat false (List.length fs)).
Proof.
  induction fs as [|f fs (IH1 & IH2 & IH3)].
  - cbn. repeat split; try tauto; try lia. intros (s & [] & _).
  - cbn [polls].
    pose proof (check_baseline b f) as Hb. pose proof (check_reload b f) as Hr.
    destruct (checkForUpdates (Some b) f) as [l r]; cbn in Hb, Hr. subst l.
    destruct r.
    + destruct Hr as [Hr _]. destruct (Hr eq_refl) as (s & -> & Hs & Hne).
      split; [|split].
      * split; [intros _|intros _; now left]. exists s. repeat split; auto. now left.
      * cbn. lia.
      * intros H. exfalso. apply H. now left.
    + split; [|split].
      * split.
        -- intros [H|H]; [discriminate|]. apply IH1 in H as (s & Hin & Hs & Hne).
           exists s. repeat split; auto. now right.
        -- intros (s & [Hin|Hin] & Hs & Hne).
           ++ destruct Hr as [_ Hr]. assert (false = true) by (apply Hr; eauto).
              discriminate.
           ++ right. apply IH1. eauto.
      * cbn. lia.
      * intros H. cbn [List.length List.repeat]. f_equal. apply IH3.
        intros H'. apply H. now right.
Qed.

End ReloadMore.

(* ===================================================================== *)
(** ** Server and page together *)
(* ===================================================================== *)

Module HotReloadFacts.
Import Coordinator Reload HotReload.

Lemma run_fingerprint_kept evs : forall st st',
  run st evs = Some st' ->
  (forall env, In (Finish env) evs -> failure env) ->
  last_wasm_hash (srv (world st')) = last_wasm_hash (srv (world st)).
Proof.
  induction evs as [|ev evs IH]; cbn [run]; intros st st' Hr Hf.
  - now injection Hr as <-.
  - destruct (step st ev) as [st1|] eqn:E; [|discriminate].
    rewrite (IH st1 st' Hr) by (intros env Hin; apply Hf; now right).
    destruct (CoordinatorFacts.step_fingerprint _ _ _ E)
      as [Heq|(env & d & -> & Hs & _)]; [exact Heq|].
    assert (Hfail : failure env) by (apply Hf; now left).
    apply CoordinatorFacts.succeeds_failure in Hfail. congruence.
Qed.

(** X10.  Failed builds never reload the page: when the page's baseline is
    the fingerprint the server holds, then after any activity of the threads
    in which every build cycle fails, a poll leaves the page as it is. *)
Theorem failed_builds_never_reload
    (st : State) (evs : list Event) (st' : State) (b : string) :
  run st evs = Some st' ->
  last_wasm_hash (srv (world st)) = Some b ->
  (forall env, In (Finish env) evs -> failure env) ->
  checkForUpdates (Some b) (observe st') = (Some b, false).
Proof.
  intros Hr Hb Hf. unfold observe, status; cbn [snd].
  rewrite (run_fingerprint_kept _ _ _ Hr Hf), Hb. cbn.
  now rewrite String.eqb_refl, andb_false_r.
Qed.

Lemma failed_builds_never_reload_witness :
  checkForUpdates (Some "5d41402abc4b2a76b9719d911017c592")
    (observe (mkState stored_world 0 0 1))
  = (Some "5d41402abc4b2a76b9719d911017c592", false).
Proof.
  apply (failed_builds_never_reload (mkState stored_world 0 0 0)
           [Call; Finish timeout_env]).
  - reflexivity.
  - reflexivity.
  - intros env [H|[H|[]]]; [discriminate|].
    injection H as <-. right; left. reflexivity.
Defined.




End HotReloadFacts.

(* ===================================================================== *)
(** ** Injection: where the script goes *)
(* ===================================================================== *)

Module InjectMore.
Import Inject.

Lemma append_assoc3 a : forall b c, (a ++ b) ++ c = a ++ (b ++ c).
Proof.
  induction a as [|x a IH]; intros b c; [reflexivity|].
  change (String x ((a ++ b) ++ c) = String x (a ++ (b ++ c))). now rewrite IH.
Qed.

Lemma length_append a : forall b,
  String.length (a ++ b) = (String.length a + String.length b)%nat.
Proof.
  induction a as [|x a IH]; intros b; [reflexivity|].
  change (S (String.length (a ++ b)) = S (String.length a + String.length b)).
  now rewrite IH.
Qed.

Lemma prefix_cons x p y s :
  String.prefix (String x p) (String y s)
  = if ascii_dec x y then String.prefix p s else false.
Proof. reflexivity. Qed.

Lemma prefix_self_append old : forall b, String.prefix old (old ++ b) = true.
Proof.
  induction old as [|c old IH]; intros b; [apply InjectFacts.prefix_empty|].
  change (String c old ++ b) with (String c (old ++ b)). rewrite prefix_cons.
  destruct (ascii_dec c c); [apply IH|congruence].
Qed.

(** A prefix test only reads as many characters as the prefix has. *)
Lemma prefix_short s : forall p t,
  (String.length p <= String.length s)%nat ->
  String.prefix p (s ++ t) = String.prefix p s.
Proof.
  induction s as [|y s IH]; intros [|x p] t H; cbn in H.
  - now rewrite !InjectFacts.prefix_empty.
  - lia.
  - now rewrite !InjectFacts.prefix_empty.
  - change (String y s ++ t) with (String y (s ++ t)). rewrite !prefix_cons.
    destruct (ascii_dec x y); [apply IH; lia|reflexivity].
Qed.

Lemma replace_from_skip old new x : forall b,
  PyStr.replace_from old new (String.length x) (x ++ b)
  = PyStr.replace_from old new 0 b.
Proof. induction x as [|c x IH]; intros b; [reflexivity|]. cbn. apply IH. Qed.

Lemma contains_cons_false m c s :
  PyStr.contains m (String c s) = false ->
  String.prefix m (String c s) = false /\ PyStr.contains m s = false.
Proof.
  change (PyStr.contains m (String c s))
    with (if String.prefix m (String c s) then true else PyStr.contains m s).
  destruct (String.prefix m (String c s)); [discriminate|auto].
Qed.

(** Where the text replaced does not occur, [replace] changes nothing. *)
Lemma replace_absent old new s :
  PyStr.contains old s = false -> PyStr.replace old new s = s.
Proof.
  unfold PyStr.replace. induction s as [|c s IH]; intros H; [reflexivity|].
  apply contains_cons_false in H as [Hp Hc].
  cbn [PyStr.replace_from]. rewrite Hp. now rewrite IH.
Qed.

(** The first occurrence: with [old = pre ++ l] not occurring in [a ++ pre],
    no occurrence of [old] in [a ++ old ++ b] starts inside [a]. *)
Lemma replace_first c0 old' pre l new b : forall a,
  String c0 old' = pre ++ String l "" ->
  PyStr.contains (String c0 old') (a ++ pre) = false ->
  PyStr.replace (String c0 old') new (a ++ String c0 old' ++ b)
  = a ++ new ++ PyStr.replace (String c0 old') new b.
Proof.
  intros a Hold. unfold PyStr.replace. induction a as [|c a IH]; intros H.
  - change ("" ++ String c0 old' ++ b) with (String c0 (old' ++ b)).
    cbn [PyStr.replace_from].
    change (String c0 (old' ++ b)) with (String c0 old' ++ b).
    rewrite prefix_self_append.
    change (String.length (String c0 old') - 1)%nat with (String.length old' - 0)%nat.
    rewrite Nat.sub_0_r, replace_from_skip. reflexivity.
  - change (String c a ++ pre) with (String c (a ++ pre)) in H.
    apply contains_cons_false in H as [Hp Hc].
    change (String c a ++ String c0 old' ++ b)
      with (String c (a ++ String c0 old' ++ b)).
    cbn [PyStr.replace_from].
    assert (Hs : String c (a ++ String c0 old' ++ b)
                 = String c (a ++ pre) ++ (String l "" ++ b)).
    { rewrite Hold.
      change (String c (a ++ pre) ++ (String l "" ++ b))
        with (String c ((a ++ pre) ++ (String l "" ++ b))).
      f_equal. now rewrite (append_assoc3 a pre), (append_assoc3 pre). }
    rewrite Hs, prefix_short, Hp.
    + change (String c a ++ new ++ PyStr.replace_from (String c0 old') new 0 b)
        with (String c (a ++ new ++ PyStr.replace_from (String c0 old') new 0 b)).
      f_equal. apply IH, Hc.
    + rewrite Hold. cbn. rewrite !length_append. cbn. lia.
Qed.

(** X12.  Let the content hold no marker and let its first [</body>] tag
    start right after [a].  Then injection puts the script and a newline
    directly before that tag and leaves [a] untouched; what follows the tag
    is treated the same way, and is left untouched when it holds no further
    tag.  This holds for the script of either server. *)
Theorem inject_before_body_tag (script a b : string) :
  PyStr.contains "raven-hot-reload" (a ++ "</body>" ++ b) = false ->
  PyStr.contains "</body>" (a ++ "</body") = false ->
  inject script (Some (a ++ "</body>" ++ b))
  = Some (a ++ (script ++ PyStr.newline ++ "</body>")
            ++ PyStr.replace "</body>" (script ++ PyStr.newline ++ "</body>") b) /\
  (PyStr.contains "</body>" b = false ->
   inject script (Some (a ++ "</body>" ++ b))
   = Some (a ++ (script ++ PyStr.newline ++ "</body>") ++ b)).
Proof.
  intros Hm Hfirst.
  assert (Hc : PyStr.contains "</body>" (a ++ "</body>" ++ b) = true).
  { apply WatcherMore.contains_append_r, InjectFacts.contains_prefix.
    apply (prefix_self_append "</body>"). }
  assert (Hi : inject script (Some (a ++ "</body>" ++ b))
               = Some (a ++ (script ++ PyStr.newline ++ "</body>")
                         ++ PyStr.replace "</body>" (script ++ PyStr.newline ++ "</body>") b)).
  { unfold inject. rewrite Hm, Hc. f_equal.
    apply (replace_first "<" "/body>" "</body" ">"); [reflexivity|exact Hfirst]. }
  split; [exact Hi|]. intros Hb. rewrite Hi. now rewrite (replace_absent _ _ b Hb).
Qed.

Lemma inject_before_body_tag_witness :
  inject script (Some ("<html><body><p>Hi</p>" ++ "</body>" ++ "</html>"))
  = Some ("<html><body><p>Hi</p>" ++ (script ++ PyStr.newline ++ "</body>")
            ++ PyStr.replace "</body>" (script ++ PyStr.newline ++ "</body>") "</html>") /\
  (PyStr.contains "</body>" "</html>" = false ->
   inject script (Some ("<html><body><p>Hi</p>" ++ "</body>" ++ "</html>"))
   = Some ("<html><body><p>Hi</p>" ++ (script ++ PyStr.newline ++ "</body>") ++ "</html>")).
Proof.
  apply (inject_before_body_tag script "<html><body><p>Hi</p>" "</html>"); reflexivity.
Defined.

End InjectMore.

(* ===================================================================== *)
(** ** Shared utilities *)
(* ===================================================================== *)

Module UtilsFacts.
Import Utils.

Ltac witness_level k :=
  exists k; split; [lia|]; split; [reflexivity|]; split; [assumption|].

Lemma search_parents_some has_package n : forall d r,
  search_parents has_package n d = Some r <->
  exists k, (1 <= k <= n)%nat /\ r = up k d /\ has_package (up k d) = true /\
            forall j, (1 <= j < k)%nat -> has_package (up j d) = false.
Proof.
  induction n as [|n IH]; intros d r; cbn [search_parents].
  - split; [discriminate|]. intros (k & Hk & _). lia.
  - destruct (has_package (parent d)) eqn:Hd.
    + split.
      * intros [= <-]. witness_level 1%nat. intros j Hj; lia.
      * intros (k & Hk & -> & Hp & Hn). destruct k as [|[|k]]; [lia|reflexivity|].
        assert (Hx := Hn 1%nat ltac:(lia)). cbn in Hx. congruence.
    + rewrite IH. split.
      * intros (k & Hk & -> & Hp & Hn). witness_level (S k).
        intros [|[|j]] Hj; [lia|exact Hd|]. apply (Hn (S j)). lia.
      * intros (k & Hk & -> & Hp & Hn). destruct k as [|[|k]]; [lia| |].
        -- cbn in Hp. congruence.
        -- witness_level (S k). intros j Hj. apply (Hn (S j)). lia.
Qed.

Lemma search_parents_none has_package n : forall d,
  search_parents has_package n d = None <->
  forall k, (1 <= k <= n)%nat -> has_package (up k d) = false.
Proof.
  induction n as [|n IH]; intros d; cbn [search_parents].
  - split; [intros _ k Hk; lia|reflexivity].
  - destruct (has_package (parent d)) eqn:Hd.
    + split; [discriminate|]. intros H. assert (Hx := H 1%nat ltac:(lia)). cbn in Hx. congruence.
    + rewrite IH. split.
      * intros H [|[|k]] Hk; [lia|exact Hd|]. apply (H (S k)). lia.
      * intros H k Hk. apply (H (S k)). lia.
Qed.

(** X13.  [find_app_root] returns the nearest directory that holds
    [Package.swift] among the working directory and its first three
    ancestors, and [None] exactly when none of these four holds one: a
    package four or more levels up is not found. *)
Theorem find_app_root_nearest (has_package : Dir -> bool) (cwd : Dir) :
  (forall r,
     find_app_root has_package cwd = Some r <->
     exists k, (k <= 3)%nat /\ r = up k cwd /\ has_package (up k cwd) = true /\
               forall j, (j < k)%nat -> has_package (up j cwd) = false) /\
  (find_app_root has_package cwd = None <->
   forall k, (k <= 3)%nat -> has_package (up k cwd) = false).
Proof.
  unfold find_app_root. destruct (has_package cwd) eqn:H0; split.
  - intros r. split.
    + intros [= <-]. witness_level 0%nat. intros j Hj; lia.
    + intros (k & Hk & -> & Hp & Hn). destruct k as [|k]; [reflexivity|].
      assert (Hx := Hn 0%nat ltac:(lia)). cbn in Hx. congruence.
  - split; [discriminate|]. intros H. assert (Hx := H 0%nat ltac:(lia)). cbn in Hx. congruence.
  - intros r. rewrite search_parents_some. split.
    + intros (k & Hk & -> & Hp & Hn). witness_level k.
      intros [|j] Hj; [exact H0|]. apply Hn. lia.
    + intros (k & Hk & -> & Hp & Hn). destruct k as [|k]; [cbn in Hp; congruence|].
      witness_level (S k). intros j Hj. apply Hn. lia.
  - rewrite search_parents_none. split.
    + intros H [|k] Hk; [exact H0|]. apply H. lia.
    + intros H k Hk. apply H. lia.
Qed.

Lemma foldl_setdefault (l : list (string * JValue)) :
  forall (c : gmap string JValue) (k : string),
    foldl (fun c kv => setdefault (fst kv) (snd kv) c) c l !! k
    = match c !! k with
      | Some v => Some v
      | None => (list_to_map l : gmap string JValue) !! k
      end.
Proof.
  induction l as [|[k0 v0] l IH]; intros c k; cbn [foldl list_to_map foldr].
  - now destruct (c !! k).
  - rewrite IH. cbn [fst snd uncurry]. unfold setdefault.
    destruct (c !! k0) eqn:E0.
    + destruct (c !! k) eqn:Ek; [reflexivity|].
      rewrite lookup_insert_ne; [reflexivity|congruence].
    + destruct (decide (k0 = k)) as [->|Hne].
      * rewrite !lookup_insert_eq. now rewrite E0.
      * rewrite !lookup_insert_ne by assumption. reflexivity.
Qed.

(** X14.  The settings of [.raven.json] override the defaults key by key:
    after the merge of [get_config] every key the file gives keeps the
    file's value, every other key has its default when there is one, and the
    six settings with a default are always present. *)
Theorem config_file_overrides_by_key
    (app_root_name : string) (config : gmap string JValue) (k : string) :
  merge_defaults app_root_name config
  = config ∪ list_to_map (defaults app_root_name) /\
  (forall v, config !! k = Some v ->
             merge_defaults app_root_name config !! k = Some v) /\
  (config !! k = None ->
   merge_defaults app_root_name config !! k
   = (list_to_map (defaults app_root_name) : gmap string JValue) !! k) /\
  (k ∈ ["app_name"; "swift_sdk"; "wasm_target"; "public_dir"; "build_dir";
        "source_dirs"] ->
   is_Some (merge_defaults app_root_name config !! k)).
Proof.
  assert (H : forall j, merge_defaults app_root_name config !! j
                        = match config !! j with
                          | Some v => Some v
                          | None => (list_to_map (defaults app_root_name)
                                     : gmap string JValue) !! j
                          end).
  { intros j. unfold merge_defaults. apply foldl_setdefault. }
  split; [|split; [|split]].
  - apply map_eq. intros j. rewrite H, lookup_union.
    destruct (config !! j);
      destruct ((list_to_map (defaults app_root_name) : gmap string JValue) !! j);
      reflexivity.
  - intros v Hv. now rewrite H, Hv.
  - intros Hn. now rewrite H, Hn.
  - intros Hin. rewrite H. destruct (config !! k); [eauto|].
    repeat (apply elem_of_cons in Hin as [->|Hin]; [cbn; eauto|]).
    now apply elem_of_nil in Hin.
Qed.

(** X15.  The watched directories after [get_config].  In an app whose path
    contains [Examples] and whose [../../Sources] exists, [../../Sources] is
    appended to the list the file gives, or to [['Sources']] when it gives
    none, and the call raises when the file's [source_dirs] is not a list.
    In every other app the list is the file's own or [['Sources']], and the
    call does not raise.  No other setting is changed by this step. *)
Theorem config_source_dirs
    (file : option (gmap string JValue)) (app_root : string) (framework_exists : bool) :
  let given := match file with Some c => c | None => ∅ end in
  let merged := merge_defaults (path_name app_root) given in
  let base := match given !! "source_dirs" with
              | Some v => v
              | None => JList ["Sources"]
              end in
  merged !! "source_dirs" = Some base /\
  (PyStr.contains "Examples" app_root && framework_exists = false ->
   get_config_settings file app_root framework_exists = Some merged) /\
  (PyStr.contains "Examples" app_root && framework_exists = true ->
   match base with
   | JList l =>
       get_config_settings file app_root framework_exists
       = Some (<["source_dirs" := JList (l ++ ["../../Sources"])]> merged)
   | _ => get_config_settings file app_root framework_exists = None
   end).
Proof.
  intros given merged base.
  assert (Hm : merged !! "source_dirs" = Some base).
  { unfold merged, merge_defaults. rewrite foldl_setdefault. unfold base.
    now destruct (given !! "source_dirs"). }
  split; [exact Hm|]. unfold get_config_settings. fold given. fold merged.
  split; intros H.
  - destruct (PyStr.contains "Examples" app_root); [|reflexivity].
    destruct framework_exists; [discriminate|reflexivity].
  - apply andb_prop in H as [-> ->]. rewrite Hm. rewrite Hm.
    now destruct base.
Qed.

Lemma config_source_dirs_witness :
  let given := (∅ : gmap string JValue) in
  let merged := merge_defaults (path_name "/repo/Examples/TodoApp") given in
  let base := match given !! "source_dirs" with
              | Some v => v
              | None => JList ["Sources"]
              end in
  merged !! "source_dirs" = Some base /\
  (PyStr.contains "Examples" "/repo/Examples/TodoApp" && true = false ->
   get_config_settings None "/repo/Examples/TodoApp" true = Some merged) /\
  (PyStr.contains "Examples" "/repo/Examples/TodoApp" && true = true ->
   match base with
   | JList l =>
       get_config_settings None "/repo/Examples/TodoApp" true
       = Some (<["source_dirs" := JList (l ++ ["../../Sources"])]> merged)
   | _ => get_config_settings None "/repo/Examples/TodoApp" true = None
   end).
Proof. exact (config_source_dirs None "/repo/Examples/TodoApp" true). Defined.

End UtilsFacts.

(* ===================================================================== *)
(** ** The commands *)
(* ===================================================================== *)

Module CommandsFacts.
Import Coordinator Commands.





Ltac build_cases s :=
  unfold build_command, chosen_wasm;
  destruct (root_found s); cbn [negb];
  [destruct (setup_raises s);
   [|destruct (ran s) as [rc err| |];
     [destruct (Z.eqb_spec rc 0) as [->|Hne]; cbn [negb];
      [destruct (if release s then release_wasm s else debug_wasm s) as [d|] eqn:Ec;
       [destruct (size_raises s);
        [|destruct (public_exists s);
          [destruct (copy_fails s); [destruct (copy_left s) as [x|]|]|]]|]|]| |]]|];
  cbn [ending error_lines public_wasm'].

(** X17.  [build_command] returns, exits with status 1, or is left by an
    exception; the last exactly when the app root was found and [os.chdir]
    or [get_config] raised.  It returns exactly when the app root was
    found, the set-up and the build command went through with exit status
    0, the artifact of the chosen configuration (release or debug) exists
    and can be measured, and the copy into an existing public directory did
    not fail; the public directory, if it exists, then holds that artifact.
    The served artifact differs from the one before only when [copy2] was
    called: it is the new artifact when the copy returned, and what the
    broken copy left when it failed.  Error lines are printed only after a
    non-zero exit without [--verbose]: the first ten of the captured
    output. *)
Theorem build_command_outcome (s : BuildSetup) :
  (ending (build_command s) = Returns \/
   ending (build_command s) = Exits 1 \/
   ending (build_command s) = Raises) /\
  (ending (build_command s) = Raises <->
   root_found s = true /\ setup_raises s = true) /\
  (ending (build_command s) = Returns <->
   root_found s = true /\ setup_raises s = false /\
   (exists err, ran s = Returned 0 err) /\
   (exists d, chosen_wasm s = Some d) /\
   size_raises s = false /\ (public_exists s = true -> copy_fails s = false)) /\
  (ending (build_command s) = Returns ->
   public_wasm' (build_command s)
   = if public_exists s then chosen_wasm s else public_wasm s) /\
  (public_wasm' (build_command s) <> public_wasm s ->
   root_found s = true /\ setup_raises s = false /\
   (exists err, ran s = Returned 0 err) /\
   size_raises s = false /\ public_exists s = true /\
   exists d, chosen_wasm s = Some d /\
     ((copy_fails s = false /\ public_wasm' (build_command s) = Some d) \/
      (copy_fails s = true /\
       exists x, copy_left s = Some x /\ public_wasm' (build_command s) = Some x))) /\
  (error_lines (build_command s) <> [] ->
   verbose s = false /\
   exists rc err, ran s = Returned rc err /\ rc <> 0%Z /\
                  error_lines (build_command s)
                  = ErrorLines.build_report false (Some err)).
Proof.
  split; [|split; [|split; [|split; [|split]]]].
  - build_cases s; auto.
  - build_cases s; split; try discriminate; try (intros [? ?]; discriminate); auto.
  - build_cases s; split; try discriminate; auto;
      try (intros (H1 & H2 & (e & H3) & (d' & H4) & H5 & H6);
           first [discriminate | congruence | discriminate (H6 eq_refl)]).
    + intros _. repeat split; eauto.
    + intros _. repeat split; eauto. discriminate.
  - build_cases s; try discriminate; reflexivity.
  - build_cases s; intros Hd; try (now contradiction Hd).
    + repeat split; eauto. exists d. split; [reflexivity|]. right. eauto.
    + repeat split; eauto.
  - build_cases s; intros Hl; try (now contradiction Hl).
    destruct (verbose s); cbn in *; [now contradiction Hl|].
    split; [reflexivity|]. exists rc, err. auto.
Qed.

End CommandsFacts.

(* ===================================================================== *)
(** ** The API gap report *)
(* ===================================================================== *)

Module GapReportFacts.
Import GapReport.

Lemma classify_from raven syms : forall matched missing skipped,
  List.fold_left (classify_step raven) syms (matched, missing, skipped)
  = ((matched ++ List.filter (is_matched raven) syms)%list,
     (missing ++ List.filter (is_missing raven) syms)%list,
     (skipped ++ List.filter (is_skipped raven) syms)%list).
Proof.
  induction syms as [|sym syms IH]; intros matched missing skipped;
    cbn [List.fold_left List.filter].
  - now rewrite !List.app_nil_r.
  - unfold classify_step at 2, is_matched, is_missing, is_skipped.
    destruct (match_symbol sym raven) as [[|]|]; rewrite IH;
      now rewrite <- ?List.app_assoc.
Qed.

Lemma three_way_count raven syms :
  (List.length (List.filter (is_matched raven) syms)
   + List.length (List.filter (is_missing raven) syms)
   + List.length (List.filter (is_skipped raven) syms)
   = List.length syms)%nat.
Proof.
  induction syms as [|sym syms IH]; [reflexivity|]. cbn [List.filter].
  unfold is_matched at 1, is_missing at 1, is_skipped at 1.
  destruct (match_symbol sym raven) as [[|]|]; cbn [List.length]; lia.
Qed.

Lemma build_report_partition_eq (syms : list SwiftUISymbol) (raven : Inventory) :
  classify syms raven
  = (List.filter (is_matched raven) syms,
     List.filter (is_missing raven) syms,
     List.filter (is_skipped raven) syms) /\
  (forall sym, is_skipped raven sym = negb (mem (decl_kind sym) SCORABLE_DECL_KINDS)).
Proof.
  split; [unfold classify; now rewrite classify_from|].
  intros sym. unfold is_skipped, match_symbol.
  destruct (mem (decl_kind sym) SCORABLE_DECL_KINDS); [|reflexivity].
  change (negb true) with false. cbv iota.
  repeat match goal with
         | |- context [if ?b then _ else _] =>
             match type of b with bool => destruct b end
         end; reflexivity.
Qed.

(** X18.  [build_report] sorts every symbol into exactly one of [matched],
    [missing] and [skipped], each list keeping the order of the input:
    the matched symbols are those [match_symbol] returns [True] for, the
    missing those it returns [False] for, the skipped those it returns
    [None] for, that is those whose declaration kind is not scored.  The
    three counts add up to the number of symbols, and [scoreable_total] is
    the number of matched and missing symbols together. *)
Theorem build_report_partition (syms : list SwiftUISymbol) (raven : Inventory) :
  classify syms raven
  = (List.filter (is_matched raven) syms,
     List.filter (is_missing raven) syms,
     List.filter (is_skipped raven) syms) /\
  (forall sym, is_skipped raven sym = negb (mem (decl_kind sym) SCORABLE_DECL_KINDS)) /\
  (List.length (fst (fst (classify syms raven)))
   + List.length (snd (fst (classify syms raven)))
   + List.length (snd (classify syms raven)) = List.length syms)%nat /\
  scoreable_total syms raven
  = (List.length (fst (fst (classify syms raven)))
     + List.length (snd (fst (classify syms raven))))%nat.
Proof.
  destruct (build_report_partition_eq syms raven) as [Hc Hs].
  split; [exact Hc|]. split; [exact Hs|split].
  - rewrite Hc. cbn [fst snd]. apply three_way_count.
  - unfold scoreable_total. rewrite Hc. cbn [fst snd].
    pose proof (three_way_count raven syms). lia.
Qed.

Lemma qualified_in_mono owner member l1 l2 :
  (forall x, mem x l1 = true -> mem x l2 = true) ->
  qualified_in owner member l1 = true -> qualified_in owner member l2 = true.
Proof.
  intros H. unfold qualified_in. rewrite !List.existsb_exists.
  intros (c & Hin & Hc). exists c. auto.
Qed.

Lemma match_symbol_mono sym r1 r2 :
  inventory_le r1 r2 ->
  match_symbol sym r1 = Some true -> match_symbol sym r2 = Some true.
Proof.
  intros (Ht & Hqt & Hf & Hv & Hqf & Hqv & Hc). unfold match_symbol.
  destruct (negb (mem (decl_kind sym) SCORABLE_DECL_KINDS)); [discriminate|].
  destruct (mem (decl_kind sym) TYPE_DECL_KINDS).
  { destruct (negb (String.eqb (owner_context sym) "")
              && negb (mem (owner_context sym) ["SwiftUI"; module_name sym])); cbn [andb].
    - destruct (mem _ (qualified_type_names r1)) eqn:E1.
      + now rewrite (Hqt _ E1).
      + intros [= H]. rewrite (Ht _ H). now destruct (mem _ (qualified_type_names r2)).
    - intros [= H]. now rewrite (Ht _ H). }
  destruct (String.eqb (decl_kind sym) "Func" || String.eqb (decl_kind sym) "Macro").
  { destruct (qualified_in _ _ (qualified_func_names r1)) eqn:E1.
    - now rewrite (qualified_in_mono _ _ _ _ Hqf E1).
    - destruct (should_allow_name_only_fallback sym (owner_context sym));
        [|discriminate].
      intros [= H]. rewrite (Hf _ H).
      now destruct (qualified_in _ _ (qualified_func_names r2)). }
  destruct (String.eqb (decl_kind sym) "Var" || String.eqb (decl_kind sym) "Subscript").
  { destruct (qualified_in _ _ (qualified_var_names r1)) eqn:E1.
    - now rewrite (qualified_in_mono _ _ _ _ Hqv E1).
    - destruct (should_allow_name_only_fallback sym (owner_context sym));
        [|discriminate].
      intros [= H]. rewrite (Hv _ H).
      now destruct (qualified_in _ _ (qualified_var_names r2)). }
  destruct (String.eqb (decl_kind sym) "Constructor"); [|discriminate].
  intros [= H]. now rewrite (Hc _ H).
Qed.

Lemma filter_length_mono {A} (f g : A -> bool) (l : list A) :
  (forall x, f x = true -> g x = true) ->
  (List.length (List.filter f l) <= List.length (List.filter g l))%nat.
Proof.
  intros H. induction l as [|x l IH]; [reflexivity|]. cbn [List.filter].
  destruct (f x) eqn:Ef.
  - rewrite (H x Ef). cbn [List.length]. lia.
  - destruct (g x); cbn [List.length]; lia.
Qed.

(** X19.  Declaring more in Raven never loses a match: when every name of
    one inventory is in another, each symbol matched against the first is
    matched against the second, the count of matched symbols does not go
    down, and which symbols are skipped does not change. *)
Theorem more_declarations_more_matches
    (syms : list SwiftUISymbol) (r1 r2 : Inventory) :
  inventory_le r1 r2 ->
  (forall sym, match_symbol sym r1 = Some true -> match_symbol sym r2 = Some true) /\
  (List.length (fst (fst (classify syms r1)))
   <= List.length (fst (fst (classify syms r2))))%nat /\
  snd (classify syms r1) = snd (classify syms r2).
Proof.
  intros Hle.
  destruct (build_report_partition_eq syms r1) as [-> Hs1].
  destruct (build_report_partition_eq syms r2) as [-> Hs2].
  cbn [fst snd]. split; [|split].
  - intros sym. now apply match_symbol_mono.
  - apply filter_length_mono. intros sym. unfold is_matched.
    destruct (match_symbol sym r1) as [[|]|] eqn:E; try discriminate.
    intros _. now rewrite (match_symbol_mono _ _ _ Hle E).
  - apply List.filter_ext. intros sym. now rewrite Hs1, Hs2.
Qed.

Lemma more_declarations_more_matches_witness :
  (forall sym, match_symbol sym no_inventory = Some true ->
               match_symbol sym (mkInventory ["Text"] [] [] [] [] [] []) = Some true) /\
  (List.length (fst (fst (classify
      [mkSymbol "s:7SwiftUI4TextV" "Struct" "Text" "Text" "SwiftUI" ["SwiftUI"; "Text"]]
      no_inventory)))
   <= List.length (fst (fst (classify
      [mkSymbol "s:7SwiftUI4TextV" "Struct" "Text" "Text" "SwiftUI" ["SwiftUI"; "Text"]]
      (mkInventory ["Text"] [] [] [] [] [] [])))))%nat /\
  snd (classify
      [mkSymbol "s:7SwiftUI4TextV" "Struct" "Text" "Text" "SwiftUI" ["SwiftUI"; "Text"]]
      no_inventory)
  = snd (classify
      [mkSymbol "s:7SwiftUI4TextV" "Struct" "Text" "Text" "SwiftUI" ["SwiftUI"; "Text"]]
      (mkInventory ["Text"] [] [] [] [] [] [])).
Proof.
  apply (more_declarations_more_matches
           [mkSymbol "s:7SwiftUI4TextV" "Struct" "Text" "Text" "SwiftUI" ["SwiftUI"; "Text"]]
           no_inventory (mkInventory ["Text"] [] [] [] [] [] [])).
  repeat split; intros x H; discriminate H.
Defined.

Lemma own_symbol_well_formed name dk u pn mn ps :
  Forall well_formed (own_symbol name dk u pn mn ps).
Proof.
  unfold own_symbol. destruct dk as [k|]; [|constructor].
  destruct (mem k TARGET_DECL_KINDS) eqn:Ek; [|constructor].
  destruct (negb (String.eqb (get_or "" u) "") && negb (PyStr.startswith "_" name))
    eqn:E1; [|constructor].
  destruct (negb (PyStr.contains "._" (String.concat "." ps))) eqn:E2; [|constructor].
  apply andb_prop in E1 as [Hu Hn].
  apply negb_true_iff in Hu, Hn, E2. apply String.eqb_neq in Hu.
  repeat constructor; assumption.
Qed.

Lemma walk_well_formed : forall node parents,
  Forall well_formed (walk_swiftui_nodes node parents).
Proof.
  fix IH 1. intros [name dk u pn mn children] parents. cbn [walk_swiftui_nodes].
  apply Forall_app. split; [apply own_symbol_well_formed|].
  induction children as [|c cs IHc]; [constructor|].
  apply Forall_app. split; [apply IH|exact IHc].
Qed.

(** X20.  Every symbol [walk_swiftui_nodes] yields, from any JSON tree, has
    a scored declaration kind, a non-empty USR, a name that does not start
    with an underscore and a path with no component starting with an
    underscore after a dot.  Hence [build_report] skips none of the symbols
    of a walk: [scoreable_total] is their number, whatever the inventory. *)
Theorem walked_symbols_all_scored
    (root : Node) (parents : list string) (syms : list SwiftUISymbol) (raven : Inventory) :
  (forall sym, In sym syms -> In sym (walk_swiftui_nodes root parents)) ->
  Forall well_formed syms /\
  snd (classify syms raven) = [] /\
  scoreable_total syms raven = List.length syms.
Proof.
  intros Hsub.
  assert (Hwf : Forall well_formed syms).
  { apply List.Forall_forall. intros sym Hin.
    pose proof (walk_well_formed root parents) as Hw.
    rewrite List.Forall_forall in Hw. apply Hw, Hsub, Hin. }
  destruct (build_report_partition_eq syms raven) as [Hc Hs].
  assert (Hnil : List.filter (is_skipped raven) syms = []).
  { clear Hc Hsub. induction Hwf as [|sym syms (Hk & _) _ IH]; [reflexivity|].
    cbn [List.filter]. rewrite Hs, Hk. exact IH. }
  split; [exact Hwf|]. unfold scoreable_total. rewrite Hc. cbn [snd].
  rewrite Hnil. split; [reflexivity|]. cbn. lia.
Qed.

Lemma walked_symbols_all_scored_witness :
  Forall well_formed
    (walk_swiftui_nodes
       (mkNode "SwiftUI" None None None None
          [mkNode "Text" (Some "Struct") (Some "s:7SwiftUI4TextV") None None
             [mkNode "_storage" (Some "Var") (Some "s:x") None None []]]) []) /\
  snd (classify
         (walk_swiftui_nodes
            (mkNode "SwiftUI" None None None None
               [mkNode "Text" (Some "Struct") (Some "s:7SwiftUI4TextV") None None
                  [mkNode "_storage" (Some "Var") (Some "s:x") None None []]]) [])
         no_inventory) = [] /\
  scoreable_total
    (walk_swiftui_nodes
       (mkNode "SwiftUI" None None None None
          [mkNode "Text" (Some "Struct") (Some "s:7SwiftUI4TextV") None None
             [mkNode "_storage" (Some "Var") (Some "s:x") None None []]]) [])
    no_inventory
  = List.length
      (walk_swiftui_nodes
         (mkNode "SwiftUI" None None None None
            [mkNode "Text" (Some "Struct") (Some "s:7SwiftUI4TextV") None None
               [mkNode "_storage" (Some "Var") (Some "s:x") None None []]]) []).
Proof.
  apply (walked_symbols_all_scored
           (mkNode "SwiftUI" None None None None
              [mkNode "Text" (Some "Struct") (Some "s:7SwiftUI4TextV") None None
                 [mkNode "_storage" (Some "Var") (Some "s:x") None None []]]) []).
  intros sym H. exact H.
Defined.

End GapReportFacts.
